(** * Verification model of the broadcast-box chat engine (package [chat])

    Shallow embedding of the Go sources:
    - [internal/chat/types.go]: [CircularBuffer], [ChatRoom], [MemoryTracker];
    - the rate limiter file ([RateLimiter], [UserRateRecord]);
    - the configuration file ([DefaultConfig], [LoadFromEnv],
      [CalculateCapacity]);
    - the manager file ([Manager]) and [internal/chat/websocket.go]
      ([Connection.handleChatMessage], [handleJoin], [cleanup]).

    Conventions.
    - A Go [time.Time] is a [Z] counting nanoseconds since Go's zero time
      (January 1 of year 1), so the zero value of a [time.Time] field is [0]
      and every wall-clock reading is positive.  A [time.Duration] is a [Z]
      in nanoseconds.  [t.Before(u)] is [t < u], [t.After(u)] is [t > u],
      [t.Add(d)] is [t + d], [t.Sub(u)] is [t - u].
    - Each call of [CheckMessage] reads the clock several times under the
      limiter's mutex; the model uses one reading [now] per call.
    - Go strings are byte strings: a Rocq [string] (bytes as [ascii]);
      [len(s)] is [String.length s].
    - A Go [panic] (index out of range, [make] with a negative length,
      integer division by zero) is [None] in the [option] monad. *)

From Stdlib Require Import ZArith Lia String Ascii List Bool.
From stdpp Require Import base gmap strings list.

Local Open Scope Z_scope.

(** ** Time *)

Definition Nanosecond : Z := 1.
Definition Second : Z := 1000000000 * Nanosecond.
Definition Minute : Z := 60 * Second.

(** ** Strings: [strings.ToLower] and [strings.TrimSpace] on ASCII input *)

(** Byte-wise ASCII case folding; this is what [strings.ToLower] does on a
    string whose bytes are all below 0x80 (its fast path). *)
Definition ascii_lower (a : ascii) : ascii :=
  let n := nat_of_ascii a in
  if (65 <=? n)%nat && (n <=? 90)%nat then ascii_of_nat (n + 32) else a.

Fixpoint ToLower (s : string) : string :=
  match s with
  | EmptyString => EmptyString
  | String a s' => String (ascii_lower a) (ToLower s')
  end.

(** ASCII white space as recognised by [unicode.IsSpace]: '\t' '\n' '\v'
    '\f' '\r' and ' '. *)
Definition is_space (a : ascii) : bool :=
  match nat_of_ascii a with
  | 9 | 10 | 11 | 12 | 13 | 32 => true
  | _ => false
  end%nat.

Fixpoint drop_spaces (l : list ascii) : list ascii :=
  match l with
  | [] => []
  | a :: l' => if is_space a then drop_spaces l' else l
  end.

Definition TrimSpace (s : string) : string :=
  string_of_list_ascii
    (rev (drop_spaces (rev (drop_spaces (list_ascii_of_string s))))).

(** ** Configuration ([ChatConfig], integer fields) *)

Record ChatConfig := {
  MaxTotalMemoryMB : Z;
  MaxMessagesPerStream : Z;
  MaxUsersPerStream : Z;
  MessageRetentionMinutes : Z;
  CleanupIntervalMinutes : Z;
  InactiveStreamTimeout : Z;
  MaxMessagesPerMinute : Z;
  MaxCharactersPerMessage : Z;
  SpamThresholdMessages : Z;
  SpamTimeoutMinutes : Z
}.

Definition DefaultConfig : ChatConfig := {|
  MaxTotalMemoryMB := 100;
  MaxMessagesPerStream := 500;
  MaxUsersPerStream := 100;
  MessageRetentionMinutes := 30;
  CleanupIntervalMinutes := 5;
  InactiveStreamTimeout := 10 * Minute;
  MaxMessagesPerMinute := 10;
  MaxCharactersPerMessage := 500;
  SpamThresholdMessages := 20;
  SpamTimeoutMinutes := 5
|}.

(** ** Errors ([ChatError]) *)

Record ChatError := { Code : string; Message : string }.

(** ** The rate limiter *)

Record UserRateRecord := {
  UserID : string;
  Messages : list Z;              (* timestamps of recent messages *)
  MessageContents : list string;
  CharCountHistory : list Z;
  TimeoutUntil : Z;
  Violations : Z;
  LastCleanup : Z
}.

(** [getOrCreateRecord]'s fresh record. *)
Definition newRecord (userID : string) (now : Z) : UserRateRecord := {|
  UserID := userID; Messages := []; MessageContents := [];
  CharCountHistory := []; TimeoutUntil := 0; Violations := 0;
  LastCleanup := now |}.

(** [rl.getOrCreateRecord(userID)] *)
Definition getOrCreateRecord (rl : gmap string UserRateRecord)
    (userID : string) (now : Z) : UserRateRecord :=
  match rl !! userID with
  | Some record => record
  | None => newRecord userID now
  end.

(** [r.recordMessage(content, charCount)] *)
Definition recordMessage (now : Z) (content : string) (charCount : Z)
    (r : UserRateRecord) : UserRateRecord := {|
  UserID := UserID r;
  Messages := Messages r ++ [now];
  MessageContents := MessageContents r ++ [content];
  CharCountHistory := CharCountHistory r ++ [charCount];
  TimeoutUntil := TimeoutUntil r; Violations := Violations r;
  LastCleanup := LastCleanup r |}.

(** [r.countMessagesInWindow(window)]: timestamps strictly after
    [now - window]. *)
Definition countMessagesInWindow (now window : Z) (r : UserRateRecord) : nat :=
  let cutoff := now - window in
  length (List.filter (fun timestamp => cutoff <? timestamp) (Messages r)).

Fixpoint chars_loop (cutoff : Z) (i : nat) (ts : list Z) (hist : list Z)
    (totalChars : Z) : Z :=
  match ts with
  | [] => totalChars
  | timestamp :: ts' =>
      chars_loop cutoff (S i) ts' hist
        (if cutoff <? timestamp then
           match hist !! i with
           | Some c => totalChars + c      (* i < len(r.CharCountHistory) *)
           | None => totalChars
           end
         else totalChars)
  end.

(** [r.countCharsInWindow(window)] *)
Definition countCharsInWindow (now window : Z) (r : UserRateRecord) : Z :=
  chars_loop (now - window) 0 (Messages r) (CharCountHistory r) 0.

(** [similarity(s1, s2)] as the fraction [num / den].  The code compares
    [float64(matches)/float64(len(longer)) > 0.8]; for lengths far below
    2^50 the rounding of both sides preserves the comparison with 4/5, so
    [similarity_gt_08] decides it exactly on integers. *)
Fixpoint prefix_matches (shorter longer : string) : nat :=
  match shorter, longer with
  | String a s', String b l' =>
      ((if Ascii.eqb a b then 1 else 0) + prefix_matches s' l')%nat
  | _, _ => 0%nat
  end.

Definition similarity (s1 s2 : string) : nat * nat :=
  if String.eqb s1 s2 then (1%nat, 1%nat)
  else if (String.length s1 =? 0)%nat || (String.length s2 =? 0)%nat
  then (0%nat, 1%nat)
  else
    let '(longer, shorter) :=
      if (String.length s1 <? String.length s2)%nat then (s2, s1) else (s1, s2) in
    (prefix_matches shorter longer, String.length longer).

Definition similarity_gt_08 (s1 s2 : string) : bool :=
  let '(num, den) := similarity s1 s2 in (4 * den <? 5 * num)%nat.

(** One iteration of [isDuplicateSpam]'s loop: exact match or > 80%. *)
Definition dup_match (normalizedMessage recent : string) : bool :=
  let recentMsg := ToLower (TrimSpace recent) in
  if String.eqb recentMsg normalizedMessage then true
  else similarity_gt_08 recentMsg normalizedMessage.

(** [r.isDuplicateSpam(message)] *)
Definition isDuplicateSpam (message : string) (r : UserRateRecord) : bool :=
  let cs := MessageContents r in
  if (length cs <? 3)%nat then false
  else
    let recentCount := Nat.min (length cs) 5 in
    let normalizedMessage := ToLower (TrimSpace message) in
    let duplicateCount :=
      length (List.filter (dup_match normalizedMessage)
                (drop (length cs - recentCount) cs)) in
    (3 <=? duplicateCount)%nat.

(** [r.applyTimeout(duration)] *)
Definition applyTimeout (now duration : Z) (r : UserRateRecord) : UserRateRecord := {|
  UserID := UserID r; Messages := Messages r;
  MessageContents := MessageContents r;
  CharCountHistory := CharCountHistory r;
  TimeoutUntil := now + duration; Violations := Violations r;
  LastCleanup := LastCleanup r |}.

(** [record.Violations += k] *)
Definition addViolations (k : Z) (r : UserRateRecord) : UserRateRecord := {|
  UserID := UserID r; Messages := Messages r;
  MessageContents := MessageContents r;
  CharCountHistory := CharCountHistory r;
  TimeoutUntil := TimeoutUntil r; Violations := Violations r + k;
  LastCleanup := LastCleanup r |}.

(** The loop of [cleanup]: keep the timestamps after [cutoff], with the
    content and character count at the same index when present. *)
Fixpoint cleanup_loop (cutoff : Z) (i : nat) (ts : list Z) (cs : list string)
    (hs : list Z) : list Z * list string * list Z :=
  match ts with
  | [] => ([], [], [])
  | timestamp :: ts' =>
      let '(nm, nc, nh) := cleanup_loop cutoff (S i) ts' cs hs in
      if cutoff <? timestamp then
        (timestamp :: nm,
         match cs !! i with Some c => c :: nc | None => nc end,
         match hs !! i with Some h => h :: nh | None => nh end)
      else (nm, nc, nh)
  end.

(** [r.cleanup()] *)
Definition cleanup (now : Z) (r : UserRateRecord) : UserRateRecord :=
  if now - LastCleanup r <? Minute then r
  else
    let cutoff := now + (-5 * Minute) in
    let '(newMessages, newContents, newCharCounts) :=
      cleanup_loop cutoff 0 (Messages r) (MessageContents r) (CharCountHistory r) in
    {| UserID := UserID r; Messages := newMessages;
       MessageContents := newContents; CharCountHistory := newCharCounts;
       TimeoutUntil := TimeoutUntil r; Violations := Violations r;
       LastCleanup := now |}.

Definition deny (code msg : string) : bool * option ChatError :=
  (false, Some {| Code := code; Message := msg |}).

(** The body of [CheckMessage] once [record] is fetched: the outcome and the
    record as the pointer holds it afterwards. *)
Definition checkRecord (config : ChatConfig) (now : Z) (message : string)
    (record : UserRateRecord) : (bool * option ChatError) * UserRateRecord :=
  if now <? TimeoutUntil record then
    (deny "TIMEOUT" "You are timed out. Please wait before sending messages.",
     record)
  else
  let record := cleanup now record in
  let messageLen := Z.of_nat (String.length message) in
  if MaxCharactersPerMessage config <? messageLen then
    (deny "MESSAGE_TOO_LONG" "Message is too long. Maximum 500 characters.", record)
  else
  let recentMessages := countMessagesInWindow now (10 * Second) record in
  if (5 <=? recentMessages)%nat then
    (deny "RATE_LIMIT" "Slow down! (30 second cooldown)",
     addViolations 1 (applyTimeout now (30 * Second) record))
  else
  let messagesIn30s := countMessagesInWindow now (30 * Second) record in
  if (10 <=? messagesIn30s)%nat then
    (deny "SPAM_DETECTED" "Spam detected. (2 minute timeout)",
     addViolations 1 (applyTimeout now (2 * Minute) record))
  else
  let messagesIn60s := countMessagesInWindow now (60 * Second) record in
  if (20 <=? messagesIn60s)%nat then
    (deny "HEAVY_SPAM" "Heavy spam detected. (5 minute timeout)",
     addViolations 2 (applyTimeout now (5 * Minute) record))
  else
  let tier3 :=
    if 300 <? messageLen then
      if (1 <=? recentMessages)%nat then
        Some (deny "RATE_LIMIT_LONG_MESSAGE"
                "Large messages limited to 1 per 10 seconds.")
      else None
    else if 100 <? messageLen then
      if (3 <=? recentMessages)%nat then
        Some (deny "RATE_LIMIT_MEDIUM_MESSAGE"
                "Medium messages limited to 3 per 10 seconds.")
      else None
    else None in
  match tier3 with
  | Some res => (res, record)
  | None =>
  if isDuplicateSpam message record then
    (deny "DUPLICATE_SPAM"
       "Stop sending the same message repeatedly. (5 minute timeout)",
     addViolations 1 (applyTimeout now (5 * Minute) record))
  else
  let charsIn5Min := countCharsInWindow now (5 * Minute) record in
  if (400 <=? messageLen) && (2000 <? charsIn5Min) then
    (deny "HEAVY_TEXT_SPAM" "Too much text too quickly. (10 minute timeout)",
     addViolations 2 (applyTimeout now (10 * Minute) record))
  else
  if 5 <=? Violations record then
    (deny "REPEAT_OFFENDER" "Multiple violations. (30 minute timeout)",
     applyTimeout now (30 * Minute) record)
  else if 4 <=? Violations record then
    (deny "REPEAT_OFFENDER" "Multiple violations. (10 minute timeout)",
     applyTimeout now (10 * Minute) record)
  else if 3 <=? Violations record then
    (deny "REPEAT_OFFENDER" "Multiple violations. (5 minute timeout)",
     applyTimeout now (5 * Minute) record)
  else
    ((true, None), recordMessage now message messageLen record)
  end.

(** [rl.CheckMessage(userID, message)]: the record is shared through its
    pointer, so the updated record replaces the map entry. *)
Definition CheckMessage (config : ChatConfig) (rl : gmap string UserRateRecord)
    (userID message : string) (now : Z)
    : (bool * option ChatError) * gmap string UserRateRecord :=
  let record := getOrCreateRecord rl userID now in
  let '(res, record') := checkRecord config now message record in
  (res, <[userID := record']> rl).

(** The deletion test of [performCleanup]. *)
Definition inactive (now : Z) (record : UserRateRecord) : bool :=
  match last (Messages record) with
  | None => true                                  (* len(record.Messages) == 0 *)
  | Some t => 30 * Minute <? now - t
  end.

(** [rl.performCleanup()] *)
Definition performCleanup (now : Z) (rl : gmap string UserRateRecord)
    : gmap string UserRateRecord :=
  filter (fun kv => inactive now kv.2 = false) rl.

(** ** The decision table of the specification (section 4.4)

    A second, independent description of [CheckMessage] that follows the
    specification's table: one tier per row, a trigger per tier, evaluated
    on the history after the lazy self-cleanup, first match wins. *)

Inductive Tier :=
  | T0 | T1 | T2a | T2b | T2c | T3long | T3med | T4 | T5
  | Esc30 | Esc10 | Esc5 | Allow.

Definition tier_order : list Tier :=
  [T0; T1; T2a; T2b; T2c; T3long; T3med; T4; T5; Esc30; Esc10; Esc5; Allow].

(** "Similar": normalise both strings, similarity greater than 0.8. *)
Definition spec_similar (text m : string) : bool :=
  similarity_gt_08 (ToLower (TrimSpace m)) (ToLower (TrimSpace text)).

Definition last_n {A} (n : nat) (l : list A) : list A := drop (length l - n) l.

Definition tier_trigger (config : ChatConfig) (now : Z) (text : string)
    (h : UserRateRecord) (t : Tier) : bool :=
  let len := Z.of_nat (String.length text) in
  let c10 := countMessagesInWindow now (10 * Second) h in
  match t with
  | T0 => now <? TimeoutUntil h
  | T1 => MaxCharactersPerMessage config <? len
  | T2a => (5 <=? c10)%nat
  | T2b => (10 <=? countMessagesInWindow now (30 * Second) h)%nat
  | T2c => (20 <=? countMessagesInWindow now (60 * Second) h)%nat
  | T3long => (300 <? len) && (1 <=? c10)%nat
  | T3med => (100 <? len) && (3 <=? c10)%nat
  | T4 => (3 <=? length (List.filter (spec_similar text)
                           (last_n 5 (MessageContents h))))%nat
  | T5 => (400 <=? len) && (2000 <? countCharsInWindow now (5 * Minute) h)
  | Esc30 => 5 <=? Violations h
  | Esc10 => 4 <=? Violations h
  | Esc5 => 3 <=? Violations h
  | Allow => true
  end.

Definition first_match (p : Tier -> bool) : Tier :=
  match List.find p tier_order with Some t => t | None => Allow end.

Definition tier_code (t : Tier) : option string :=
  match t with
  | T0 => Some "TIMEOUT" | T1 => Some "MESSAGE_TOO_LONG"
  | T2a => Some "RATE_LIMIT" | T2b => Some "SPAM_DETECTED"
  | T2c => Some "HEAVY_SPAM" | T3long => Some "RATE_LIMIT_LONG_MESSAGE"
  | T3med => Some "RATE_LIMIT_MEDIUM_MESSAGE" | T4 => Some "DUPLICATE_SPAM"
  | T5 => Some "HEAVY_TEXT_SPAM"
  | Esc30 | Esc10 | Esc5 => Some "REPEAT_OFFENDER"
  | Allow => None
  end%string.

(** Timeout set by the tier, as a duration from [now]. *)
Definition tier_timeout (t : Tier) : option Z :=
  match t with
  | T2a => Some (30 * Second) | T2b => Some (2 * Minute)
  | T2c => Some (5 * Minute) | T4 => Some (5 * Minute)
  | T5 => Some (10 * Minute) | Esc30 => Some (30 * Minute)
  | Esc10 => Some (10 * Minute) | Esc5 => Some (5 * Minute)
  | _ => None
  end.

Definition tier_delta (t : Tier) : Z :=
  match t with
  | T2a | T2b | T4 => 1
  | T2c | T5 => 2
  | _ => 0
  end.

(** The record after the tier's consequence: a deny sets the timeout (if
    any) and adds the violation delta; allow records (now, text, len). *)
Definition tier_apply (now : Z) (text : string) (t : Tier)
    (h : UserRateRecord) : UserRateRecord :=
  match t with
  | Allow => recordMessage now text (Z.of_nat (String.length text)) h
  | _ =>
      let h' := match tier_timeout t with
                | Some d => applyTimeout now d h
                | None => h
                end in
      if tier_delta t =? 0 then h' else addViolations (tier_delta t) h'
  end.

(** ** Lemmas on the rate limiter *)

Definition tier_allowed (t : Tier) : bool :=
  match t with Allow => true | _ => false end.

Definition outcome_code (res : bool * option ChatError) : bool * option string :=
  (fst res, option_map Code (snd res)).

Lemma cleanup_TimeoutUntil now r : TimeoutUntil (cleanup now r) = TimeoutUntil r.
Proof.
  unfold cleanup. destruct (_ <? _); [done|].
  destruct (cleanup_loop _ _ _ _ _) as [[? ?] ?]. done.
Qed.

Lemma cleanup_Violations now r : Violations (cleanup now r) = Violations r.
Proof.
  unfold cleanup. destruct (_ <? _); [done|].
  destruct (cleanup_loop _ _ _ _ _) as [[? ?] ?]. done.
Qed.

Lemma similarity_gt_08_refl s : similarity_gt_08 s s = true.
Proof. unfold similarity_gt_08, similarity. by rewrite String.eqb_refl. Qed.

Lemma dup_match_spec text m :
  dup_match (ToLower (TrimSpace text)) m = spec_similar text m.
Proof.
  unfold dup_match, spec_similar.
  destruct (String.eqb _ _) eqn:E; [|done].
  apply String.eqb_eq in E. rewrite E. symmetry. apply similarity_gt_08_refl.
Qed.

Lemma isDuplicateSpam_spec text h :
  isDuplicateSpam text h =
  (3 <=? length (List.filter (spec_similar text) (last_n 5 (MessageContents h))))%nat.
Proof.
  unfold isDuplicateSpam, last_n.
  rewrite (List.filter_ext _ _ (dup_match_spec text)).
  destruct (Nat.ltb_spec (length (MessageContents h)) 3) as [Hl|Hl].
  - symmetry. apply Nat.leb_gt.
    pose proof (List.filter_length_le (spec_similar text)
                  (drop (length (MessageContents h) - 5) (MessageContents h))).
    rewrite length_drop in H. lia.
  - by replace (length (MessageContents h) - Nat.min (length (MessageContents h)) 5)%nat
      with (length (MessageContents h) - 5)%nat by lia.
Qed.

Lemma find_split (p : Tier -> bool) (l : list Tier) t :
  List.find p l = Some t ->
  exists pre post, l = pre ++ t :: post /\
    Forall (fun t' => p t' = false) pre /\ p t = true.
Proof.
  induction l as [|x l IH]; simpl; [done|].
  destruct (p x) eqn:E.
  - intros [= <-]. exists [], l. auto.
  - intros H. destruct (IH H) as (pre & post & -> & Hpre & Ht).
    exists (x :: pre), post. auto.
Qed.

Lemma first_match_split p :
  p Allow = true ->
  exists pre post, tier_order = pre ++ first_match p :: post /\
    Forall (fun t' => p t' = false) pre /\ p (first_match p) = true.
Proof.
  intros HA. unfold first_match.
  destruct (List.find p tier_order) as [t|] eqn:E.
  - by apply find_split.
  - apply List.find_none with (x := Allow) in E; [|simpl; tauto].
    congruence.
Qed.

Ltac case_conds :=
  repeat (match goal with
  | |- context [if (?a <=? ?b)%nat then _ else _] => destruct (Nat.leb_spec a b)
  | |- context [if (?a <? ?b)%Z then _ else _] => destruct (Z.ltb_spec a b)
  | |- context [if (?a <=? ?b)%Z then _ else _] => destruct (Z.leb_spec a b)
  | |- context [if (?a <? ?b)%Z && _ then _ else _] => destruct (Z.ltb_spec a b)
  | |- context [if (?a <=? ?b)%Z && _ then _ else _] => destruct (Z.leb_spec a b)
  | |- context [if isDuplicateSpam ?a ?b then _ else _] => destruct (isDuplicateSpam a b)
  end; cbn [andb]; try (exfalso; lia)).

Lemma checkRecord_table config now text r :
  let h := cleanup now r in
  let t := first_match (tier_trigger config now text h) in
  outcome_code (fst (checkRecord config now text r)) =
    (tier_allowed t, tier_code t) /\
  snd (checkRecord config now text r) =
    (if tier_allowed t then tier_apply now text t h
     else match t with T0 => r | _ => tier_apply now text t h end).
Proof.
  cbv zeta. unfold checkRecord, first_match, tier_order.
  cbn [List.find tier_trigger]. rewrite !cleanup_TimeoutUntil.
  destruct (Z.ltb_spec now (TimeoutUntil r)); [done|].
  rewrite !isDuplicateSpam_spec.
  generalize (cleanup now r) as h. intros h.
  set (len := Z.of_nat (String.length text)).
  set (c10 := countMessagesInWindow now (10 * Second) h).
  case_conds; done.
Qed.


Lemma CheckMessage_unfold config rl userID message now :
  CheckMessage config rl userID message now =
  (fst (checkRecord config now message (getOrCreateRecord rl userID now)),
   <[userID := snd (checkRecord config now message
                      (getOrCreateRecord rl userID now))]> rl).
Proof.
  unfold CheckMessage. by destruct (checkRecord _ _ _ _).
Qed.

(** ** C1: first match over the decision table *)

(** C1. Every call of [CheckMessage] on the user's record and a text yields
    one outcome: that of the first tier of the table (T0, T1, T2a, T2b,
    T2c, T3-long, T3-med, T4, T5, escalation 30/10/5 minutes, Allow) whose
    trigger holds on the self-cleaned history, every earlier trigger being
    false; its deny code (or allow) is returned and the record stored back
    is the history with exactly that tier's consequence (timeout, violation
    delta, or the recorded message) applied; on T0 the record is left as
    it was. *)
Theorem CheckMessage_first_match config rl userID text now :
  let r := getOrCreateRecord rl userID now in
  let h := cleanup now r in
  let t := first_match (tier_trigger config now text h) in
  (exists pre post, tier_order = pre ++ t :: post /\
     Forall (fun t' => tier_trigger config now text h t' = false) pre /\
     tier_trigger config now text h t = true) /\
  outcome_code (fst (CheckMessage config rl userID text now)) =
    (tier_allowed t, tier_code t) /\
  snd (CheckMessage config rl userID text now) =
    <[userID := if tier_allowed t then tier_apply now text t h
                else match t with T0 => r | _ => tier_apply now text t h end]> rl.
Proof.
  intros r h t.
  destruct (checkRecord_table config now text r) as [Hc Hr].
  split; [apply first_match_split; reflexivity|].
  rewrite CheckMessage_unfold. fold r. cbn [fst snd].
  split; [exact Hc|]. by rewrite Hr.
Qed.

(** ** Sequences of checks *)

Fixpoint run_checks (config : ChatConfig) (rl : gmap string UserRateRecord)
    (ops : list (string * string * Z))
    : list (bool * option ChatError) * gmap string UserRateRecord :=
  match ops with
  | [] => ([], rl)
  | (userID, message, now) :: ops' =>
      let '(res, rl') := CheckMessage config rl userID message now in
      let '(outs, rl'') := run_checks config rl' ops' in
      (res :: outs, rl'')
  end.

Lemma getOrCreateRecord_insert rl userID r now :
  getOrCreateRecord (<[userID := r]> rl) userID now = r.
Proof. unfold getOrCreateRecord. by rewrite lookup_insert_eq. Qed.

Lemma getOrCreateRecord_None rl userID now :
  rl !! userID = None -> getOrCreateRecord rl userID now = newRecord userID now.
Proof. unfold getOrCreateRecord. by intros ->. Qed.

Lemma countMessagesInWindow_le now w r :
  (countMessagesInWindow now w r <= length (Messages r))%nat.
Proof. apply List.filter_length_le. Qed.

Lemma cleanup_recent now r :
  now - LastCleanup r < Minute -> cleanup now r = r.
Proof. unfold cleanup. intros H. by destruct (Z.ltb_spec (now - LastCleanup r) Minute); [|lia]. Qed.

(** A check that passes every tier of a short, recent history. *)
Lemma checkRecord_allow config now text r :
  let len := Z.of_nat (String.length text) in
  TimeoutUntil r <= now -> now - LastCleanup r < Minute ->
  len <= MaxCharactersPerMessage config -> len <= 100 ->
  (length (Messages r) < 5)%nat -> isDuplicateSpam text r = false ->
  len < 400 -> Violations r < 3 ->
  checkRecord config now text r = ((true, None), recordMessage now text len r).
Proof.
  intros len Ht Hc Hm H100 Hn Hd H400 Hv.
  unfold checkRecord. rewrite (cleanup_recent _ _ Hc). fold len.
  pose proof (countMessagesInWindow_le now (10 * Second) r).
  pose proof (countMessagesInWindow_le now (30 * Second) r).
  pose proof (countMessagesInWindow_le now (60 * Second) r).
  rewrite Hd. case_conds; done.
Qed.

(** A duplicate detected on a short, recent history. *)
Lemma checkRecord_duplicate config now text r :
  let len := Z.of_nat (String.length text) in
  TimeoutUntil r <= now -> now - LastCleanup r < Minute ->
  len <= MaxCharactersPerMessage config -> len <= 100 ->
  (length (Messages r) < 5)%nat -> isDuplicateSpam text r = true ->
  checkRecord config now text r =
    (deny "DUPLICATE_SPAM"
       "Stop sending the same message repeatedly. (5 minute timeout)",
     addViolations 1 (applyTimeout now (5 * Minute) r)).
Proof.
  intros len Ht Hc Hm H100 Hn Hd.
  unfold checkRecord. rewrite (cleanup_recent _ _ Hc). fold len.
  pose proof (countMessagesInWindow_le now (10 * Second) r).
  pose proof (countMessagesInWindow_le now (30 * Second) r).
  pose proof (countMessagesInWindow_le now (60 * Second) r).
  rewrite Hd. case_conds; done.
Qed.

(** C4 (amended). From a user with no rate-limit record, four identical
    messages "spam" paced more than 2 seconds apart within one minute: the
    first three checks allow, the fourth is denied with DUPLICATE_SPAM and
    sets a 5-minute timeout on the record. *)
Lemma spam_four_messages rl userID t1 t2 t3 t4 :
  rl !! userID = None -> 0 <= t1 ->
  t1 + 2 * Second < t2 -> t2 + 2 * Second < t3 -> t3 + 2 * Second < t4 ->
  t4 < t1 + Minute ->
  let '(outs, rl') := run_checks DefaultConfig rl
        [(userID, "spam", t1); (userID, "spam", t2);
         (userID, "spam", t3); (userID, "spam", t4)]%string in
  map outcome_code outs =
    [(true, None); (true, None); (true, None);
     (false, Some "DUPLICATE_SPAM"%string)] /\
  option_map TimeoutUntil (rl' !! userID) = Some (t4 + 5 * Minute).
Proof.
  intros Hnone H0 H12 H23 H34 H4.
  assert (0 < Second) by (unfold Second, Nanosecond; lia).
  cbn [run_checks]. rewrite CheckMessage_unfold, (getOrCreateRecord_None _ _ _ Hnone).
  rewrite checkRecord_allow by (simpl; try reflexivity; lia).
  cbn [fst snd]. rewrite CheckMessage_unfold, getOrCreateRecord_insert.
  rewrite checkRecord_allow by (simpl; try reflexivity; lia).
  cbn [fst snd]. rewrite CheckMessage_unfold, getOrCreateRecord_insert.
  rewrite checkRecord_allow by (simpl; try reflexivity; lia).
  cbn [fst snd]. rewrite CheckMessage_unfold, getOrCreateRecord_insert.
  rewrite checkRecord_duplicate by (simpl; try reflexivity; lia).
  cbn [fst snd]. split; [reflexivity|].
  by rewrite lookup_insert_eq.
Qed.

(** C4 (as stated, refuted). Three identical "spam" messages paced three
    seconds apart within a minute, from an empty limiter: the third check
    is allowed, not denied with DUPLICATE_SPAM. *)
Lemma spam_three_counterexample :
  fst (run_checks DefaultConfig ∅
         [("u", "spam", 1000 * Second); ("u", "spam", 1003 * Second);
          ("u", "spam", 1006 * Second)]%string) =
  [(true, None); (true, None); (true, None)].
Proof. reflexivity. Qed.

Lemma spam_four_messages_witness :
  let '(outs, rl') := run_checks DefaultConfig ∅
        [("u", "spam", 1000 * Second); ("u", "spam", 1003 * Second);
         ("u", "spam", 1006 * Second); ("u", "spam", 1009 * Second)]%string in
  map outcome_code outs =
    [(true, None); (true, None); (true, None);
     (false, Some "DUPLICATE_SPAM"%string)] /\
  option_map TimeoutUntil (rl' !! "u"%string) = Some (1009 * Second + 5 * Minute).
Proof.
  apply (spam_four_messages ∅ "u"%string (1000 * Second) (1003 * Second)
           (1006 * Second) (1009 * Second));
    unfold Minute, Second, Nanosecond; first [reflexivity | lia].
Defined.

(** ** Histories of the limiter: checks and reaper runs *)

Inductive LimiterOp :=
  | OpCheck (userID message : string) (now : Z)
  | OpReap (now : Z).

Fixpoint run_limiter (config : ChatConfig) (rl : gmap string UserRateRecord)
    (ops : list LimiterOp)
    : list (option (bool * option ChatError)) * gmap string UserRateRecord :=
  match ops with
  | [] => ([], rl)
  | OpCheck userID message now :: ops' =>
      let '(res, rl') := CheckMessage config rl userID message now in
      let '(outs, rl'') := run_limiter config rl' ops' in
      (Some res :: outs, rl'')
  | OpReap now :: ops' =>
      let '(outs, rl'') := run_limiter config (performCleanup now rl) ops' in
      (None :: outs, rl'')
  end.

(** Five distinct short messages one second apart from [base], then a
    sixth one second later: the sixth trips the burst tier. *)
Definition burst (userID : string) (base : Z) : list LimiterOp :=
  map (fun '(m, k) => OpCheck userID m (base + k * Second))
    [("a", 0); ("b", 1); ("c", 2); ("d", 3); ("e", 4); ("f", 5)]%string.

(** Three bursts, 100 seconds apart: three violations. *)
Definition three_bursts (userID : string) : list LimiterOp :=
  burst userID (1000 * Second) ++ burst userID (1100 * Second) ++
  burst userID (1200 * Second).

Definition after_bursts : gmap string UserRateRecord :=
  snd (run_limiter DefaultConfig ∅ (three_bursts "u")).

(** The escalation check at 2000 s, after the 5-minute self-cleanup has
    emptied the message history. *)
Definition after_escalation : (bool * option ChatError) * gmap string UserRateRecord :=
  CheckMessage DefaultConfig after_bursts "u" "z" (2000 * Second).

Lemma performCleanup_lookup now rl userID :
  performCleanup now rl !! userID =
  match rl !! userID with
  | Some r => if inactive now r then None else Some r
  | None => None
  end.
Proof.
  unfold performCleanup. rewrite map_lookup_filter.
  destruct (rl !! userID) as [r|]; simpl; [|done].
  destruct (inactive now r); done.
Qed.

(** ** C7: the limiter's reaper *)

(** C7 (amended). A run of [performCleanup] keeps a record, unchanged
    (timeout and violations included), exactly when it has at least one
    recorded message and its last one is at most 30 minutes old; every
    other record (an empty message history, or a last message older than
    30 minutes) is removed. *)
Theorem performCleanup_keeps now rl userID r :
  performCleanup now rl !! userID = Some r <->
  rl !! userID = Some r /\ Messages r <> [] /\
  (forall t, last (Messages r) = Some t -> now - t <= 30 * Minute).
Proof.
  rewrite performCleanup_lookup. unfold inactive.
  destruct (rl !! userID) as [r0|]; [|split; [done|intros [? _]; done]].
  destruct (last (Messages r0)) as [t0|] eqn:El.
  - destruct (Z.ltb_spec (30 * Minute) (now - t0)) as [Hlt|Hge].
    + split; [done|]. intros ([= ->] & _ & Hall). specialize (Hall _ El). lia.
    + split.
      * intros [= <-]. split; [done|]. split.
        -- intros Hm. rewrite Hm in El. discriminate.
        -- intros t Ht. rewrite El in Ht. injection Ht as <-. lia.
      * intros ([= <-] & _ & _). done.
  - split; [done|]. intros ([= <-] & Hne & _).
    apply last_None in El. done.
Qed.

(** C7 (as stated, refuted). After the escalation check at 2000 s the
    record has no recorded message, a timeout running until 2300 s and
    three violations; the reaper run at 2060 s removes it although it has
    no message older than 30 minutes. *)
Lemma reaper_removes_recent_record :
  let rl := snd after_escalation in
  option_map (fun r => (Messages r, TimeoutUntil r, Violations r)) (rl !! "u"%string) =
    Some ([], 2300 * Second, 3) /\
  performCleanup (2060 * Second) rl !! "u"%string = None.
Proof. vm_compute. split; reflexivity. Qed.

(** ** C6: a timeout holds until it ends, unless the record is reaped *)

(** Every check of [userID] strictly before [T] is denied with TIMEOUT,
    along a history, until the first check of [userID] at or after [T]
    (with a monotone clock: all the checks before [T]) or until a reaper
    run removes the record. *)
Fixpoint timeout_respected (config : ChatConfig) (userID : string) (T : Z)
    (rl : gmap string UserRateRecord) (ops : list LimiterOp) : Prop :=
  match ops with
  | [] => True
  | OpCheck u m t :: ops' =>
      let '(res, rl') := CheckMessage config rl u m t in
      if String.eqb u userID then
        if t <? T then
          outcome_code res = (false, Some "TIMEOUT"%string) /\
          timeout_respected config userID T rl' ops'
        else True
      else timeout_respected config userID T rl' ops'
  | OpReap t :: ops' =>
      let rl' := performCleanup t rl in
      match rl' !! userID with
      | None => True
      | Some _ => timeout_respected config userID T rl' ops'
      end
  end.

Lemma timeout_respected_from config userID T rl ops r :
  rl !! userID = Some r -> TimeoutUntil r = T ->
  timeout_respected config userID T rl ops.
Proof.
  revert rl r. induction ops as [|[u m t|t] ops IH]; intros rl r Hr HT; simpl; [done|..].
  - rewrite CheckMessage_unfold. cbn [fst snd].
    destruct (String.eqb_spec u userID) as [->|Hne].
    + destruct (Z.ltb_spec t T) as [Hlt|]; [|done].
      unfold getOrCreateRecord. rewrite Hr.
      assert (Hc : checkRecord config t m r =
        (deny "TIMEOUT" "You are timed out. Please wait before sending messages.", r)).
      { unfold checkRecord. destruct (Z.ltb_spec t (TimeoutUntil r)); [done|lia]. }
      rewrite Hc. split; [done|].
      apply (IH _ r); [by rewrite lookup_insert_eq | done].
    + apply (IH _ r); [|done]. by rewrite lookup_insert_ne by congruence.
  - rewrite performCleanup_lookup, Hr.
    destruct (inactive t r) eqn:Ei; [done|].
    apply (IH _ r); [|done]. by rewrite performCleanup_lookup, Hr, Ei.
Qed.

(** C6 (amended). If a check of [userID] is denied and leaves a timeout
    ending at [T] on the record, every later check of [userID] at a time
    before [T] is denied with TIMEOUT, as long as no reaper run has removed
    the record in between. *)
Theorem timeout_holds_until_reaped config rl userID message now ops T :
  fst (fst (CheckMessage config rl userID message now)) = false ->
  option_map TimeoutUntil (snd (CheckMessage config rl userID message now) !! userID)
    = Some T ->
  timeout_respected config userID T (snd (CheckMessage config rl userID message now)) ops.
Proof.
  intros _ HT.
  destruct (snd (CheckMessage config rl userID message now) !! userID) as [r|] eqn:Hr;
    [|done].
  injection HT as HT. by apply (timeout_respected_from _ _ _ _ _ r).
Qed.

(** C6 (as stated, refuted).  After the three bursts, the check at 2000 s
    is denied with REPEAT_OFFENDER and sets a timeout ending at 2300 s; the
    reaper runs at 2060 s, and the check at 2120 s, before 2300 s, is
    allowed. *)
Lemma timeout_lost_counterexample :
  outcome_code (fst after_escalation) = (false, Some "REPEAT_OFFENDER"%string) /\
  option_map TimeoutUntil (snd after_escalation !! "u"%string) = Some (2300 * Second) /\
  2120 * Second < 2300 * Second /\
  outcome_code (fst (CheckMessage DefaultConfig
                       (performCleanup (2060 * Second) (snd after_escalation))
                       "u" "z" (2120 * Second))) = (true, None).
Proof. vm_compute. repeat split; reflexivity. Qed.

Lemma timeout_holds_until_reaped_witness :
  timeout_respected DefaultConfig "u" (2300 * Second)
    (snd (CheckMessage DefaultConfig after_bursts "u" "z" (2000 * Second)))
    [OpCheck "u" "y" (2010 * Second); OpCheck "v" "w" (2011 * Second)]%string.
Proof.
  apply (timeout_holds_until_reaped DefaultConfig after_bursts "u" "z"
           (2000 * Second)); vm_compute; reflexivity.
Defined.

(** ** C10: violations never decrease; three violations lock a user out *)

Lemma checkRecord_violations config now m r :
  let '((ok, err), r') := checkRecord config now m r in
  Violations r <= Violations r' /\
  (3 <= Violations r -> ok = false) /\
  (option_map Code err = Some "REPEAT_OFFENDER"%string -> now < TimeoutUntil r').
Proof.
  unfold checkRecord.
  destruct (Z.ltb_spec now (TimeoutUntil r)).
  { cbn. split; [lia|]. split; [done|]. intros Hx; inversion Hx. }
  rewrite <- (cleanup_Violations now r).
  generalize (cleanup now r) as h. intros h.
  set (len := Z.of_nat (String.length m)).
  set (c10 := countMessagesInWindow now (10 * Second) h).
  assert (0 < Minute) by (unfold Minute, Second, Nanosecond; lia).
  assert (0 < Second) by (unfold Second, Nanosecond; lia).
  case_conds; cbn; repeat split; try done; lia.
Qed.

(** The violation counter of [userID]'s record is at least [v] along a
    history until a reaper run removes the record; when [v >= 3], every
    check of [userID] meanwhile is denied, and a REPEAT_OFFENDER denial
    sets a timeout in the future. *)
Fixpoint violations_kept (config : ChatConfig) (userID : string) (v : Z)
    (rl : gmap string UserRateRecord) (ops : list LimiterOp) : Prop :=
  match ops with
  | [] => True
  | OpCheck u m t :: ops' =>
      let '(res, rl') := CheckMessage config rl u m t in
      (forall r', rl' !! userID = Some r' -> v <= Violations r') /\
      (u = userID -> 3 <= v ->
         fst res = false /\
         (option_map Code (snd res) = Some "REPEAT_OFFENDER"%string ->
          exists r', rl' !! userID = Some r' /\ t < TimeoutUntil r')) /\
      violations_kept config userID v rl' ops'
  | OpReap t :: ops' =>
      let rl' := performCleanup t rl in
      match rl' !! userID with
      | None => True
      | Some r' => v <= Violations r' /\ violations_kept config userID v rl' ops'
      end
  end.

(** C10. Starting from any limiter whose record for [userID] has at least
    [v] violations, the counter stays at least [v] after every check and
    every reaper run, for as long as the record exists; with [v >= 3] every
    check of [userID] is denied (REPEAT_OFFENDER denials setting a fresh
    timeout) until the reaper deletes the record. *)
Theorem violations_monotone_lockout config rl userID r v ops :
  rl !! userID = Some r -> v <= Violations r ->
  violations_kept config userID v rl ops.
Proof.
  revert rl r. induction ops as [|[u m t|t] ops IH]; intros rl r Hr Hv; simpl; [done|..].
  - rewrite CheckMessage_unfold. cbn [fst snd].
    destruct (String.eqb_spec u userID) as [->|Hne].
    + unfold getOrCreateRecord. rewrite Hr.
      pose proof (checkRecord_violations config t m r) as Hc.
      destruct (checkRecord config t m r) as [[ok err] r'] eqn:E.
      destruct Hc as (Hle & Hok & Hrep). cbn [fst snd].
      split; [|split].
      * rewrite lookup_insert_eq. intros ? [= <-]. lia.
      * intros _ H3. split; [apply Hok; lia|].
        intros Hcode. exists r'. rewrite lookup_insert_eq. auto.
      * apply (IH _ r'); [by rewrite lookup_insert_eq | lia].
    + split; [|split].
      * rewrite lookup_insert_ne by congruence. rewrite Hr. intros ? [= <-]. done.
      * done.
      * apply (IH _ r); [|done]. by rewrite lookup_insert_ne by congruence.
  - rewrite performCleanup_lookup, Hr.
    destruct (inactive t r) eqn:Ei; [done|].
    split; [done|].
    apply (IH _ r); [|done]. by rewrite performCleanup_lookup, Hr, Ei.
Qed.

Lemma violations_monotone_lockout_witness :
  violations_kept DefaultConfig "u" 3 after_bursts
    [OpCheck "u" "hello" (2000 * Second); OpReap (2010 * Second);
     OpCheck "u" "again" (2400 * Second)]%string.
Proof.
  apply (violations_monotone_lockout DefaultConfig after_bursts "u"%string
           (default (newRecord "u" 0) (after_bursts !! "u"%string))).
  - vm_compute. reflexivity.
  - vm_compute. intros Hx. discriminate.
Defined.

(** ** Messages, the ring buffer and rooms *)

Module CM.
(** [ChatMessage] *)
Record ChatMessage := {
  ID : string;
  StreamKey : string;
  UserID : string;
  Username : string;
  Message : string;
  Timestamp : Z
}.
End CM.

(** The zero value of [ChatMessage], which [make] puts in every slot. *)
Definition zeroMessage : CM.ChatMessage :=
  {| CM.ID := ""; CM.StreamKey := ""; CM.UserID := ""; CM.Username := "";
     CM.Message := ""; CM.Timestamp := 0 |}.

(** Go's [a % b] on non-negative [int]s: division by zero panics. *)
Definition go_mod (a b : nat) : option nat :=
  if (b =? 0)%nat then None else Some (a mod b)%nat.

(** [CircularBuffer] (the mutex is not modelled: every operation runs
    under it). *)
Record CircularBuffer := {
  data : list CM.ChatMessage;
  maxSize : nat;
  head : nat;
  tail : nat;
  size : nat
}.

(** [NewCircularBuffer(maxSize)]: [make] panics on a negative length. The
    upper limit of [make] (a length above [maxAlloc / 104] = [2^48 / 104]
    elements also panics) is not modelled: every statement below that
    creates a buffer of a given capacity holds for capacities under it. *)
Definition NewCircularBuffer (maxSize : Z) : option CircularBuffer :=
  if maxSize <? 0 then None
  else Some {| data := repeat zeroMessage (Z.to_nat maxSize);
               maxSize := Z.to_nat maxSize; head := 0; tail := 0; size := 0 |}.

(** [cb.Add(msg)] *)
Definition Add (msg : CM.ChatMessage) (cb : CircularBuffer) : option CircularBuffer :=
  match data cb !! tail cb with
  | None => None                              (* cb.data[cb.tail]: index panic *)
  | Some _ =>
      let data' := <[tail cb := msg]> (data cb) in
      tail' ← go_mod (tail cb + 1) (maxSize cb);
      if (size cb <? maxSize cb)%nat then
        Some {| data := data'; maxSize := maxSize cb; head := head cb;
                tail := tail'; size := size cb + 1 |}
      else
        head' ← go_mod (head cb + 1) (maxSize cb);
        Some {| data := data'; maxSize := maxSize cb; head := head';
                tail := tail'; size := size cb |}
  end.

(** [cb.GetAll()]: [size] entries from [head], oldest first. *)
Definition GetAll (cb : CircularBuffer) : option (list CM.ChatMessage) :=
  if (size cb =? 0)%nat then Some []
  else mapM (fun i => idx ← go_mod (head cb + i) (maxSize cb); data cb !! idx)
            (seq 0 (size cb)).

(** [cb.GetRecent(n)] *)
Definition GetRecent (n : Z) (cb : CircularBuffer) : option (list CM.ChatMessage) :=
  if (size cb =? 0)%nat then Some []
  else
    let count := if Z.of_nat (size cb) <? n then Z.of_nat (size cb) else n in
    if count <? 0 then None                    (* make([]ChatMessage, count) *)
    else
      let count := Z.to_nat count in
      let startIdx := (size cb - count)%nat in
      mapM (fun i => idx ← go_mod (head cb + startIdx + i) (maxSize cb); data cb !! idx)
           (seq 0 count).

Module Room.
(** [ChatRoom]; the roster ([Users]) and the two mutexes are not modelled:
    [AddMessage] does not touch them. *)
Record ChatRoom := {
  StreamKey : string;
  Messages : CircularBuffer;
  LastActivity : Z;
  MessageCount : Z;
  BytesUsed : Z
}.
End Room.

(** The size estimate of [cr.AddMessage]. *)
Definition msgSize (msg : CM.ChatMessage) : Z :=
  Z.of_nat (String.length (CM.ID msg) + String.length (CM.StreamKey msg) +
            String.length (CM.UserID msg) + String.length (CM.Username msg) +
            String.length (CM.Message msg) + 100).

(** [cr.AddMessage(msg)] at wall time [now]. *)
Definition AddMessage (now : Z) (msg : CM.ChatMessage) (cr : Room.ChatRoom)
    : option Room.ChatRoom :=
  buf ← Add msg (Room.Messages cr);
  Some {| Room.StreamKey := Room.StreamKey cr; Room.Messages := buf;
          Room.LastActivity := now; Room.MessageCount := Room.MessageCount cr + 1;
          Room.BytesUsed := Room.BytesUsed cr + msgSize msg |}.

(** [NewChatRoom(streamKey, maxMessages)] *)
Definition NewChatRoom (now : Z) (streamKey : string) (maxMessages : Z)
    : option Room.ChatRoom :=
  buf ← NewCircularBuffer maxMessages;
  Some {| Room.StreamKey := streamKey; Room.Messages := buf;
          Room.LastActivity := now; Room.MessageCount := 0; Room.BytesUsed := 0 |}.

(** Appending a list of messages in order. *)
Fixpoint add_all (msgs : list CM.ChatMessage) (cb : CircularBuffer)
    : option CircularBuffer :=
  match msgs with
  | [] => Some cb
  | m :: ms => cb' ← Add m cb; add_all ms cb'
  end.

(** ** Ring-buffer invariant *)

(** The shape [NewCircularBuffer] establishes for a positive capacity and
    [Add] preserves. *)
Definition buffer_wf (cb : CircularBuffer) : Prop :=
  (1 <= maxSize cb)%nat /\ length (data cb) = maxSize cb /\
  (head cb < maxSize cb)%nat /\ (size cb <= maxSize cb)%nat /\
  tail cb = ((head cb + size cb) mod maxSize cb)%nat.

Lemma mod_small_cases (a C : nat) :
  (0 < C)%nat -> (a < 2 * C)%nat ->
  (a mod C = if a <? C then a else a - C)%nat.
Proof.
  intros HC Ha. destruct (Nat.ltb_spec a C).
  - by apply Nat.mod_small.
  - replace a with (a - C + 1 * C)%nat at 1 by lia.
    rewrite Nat.Div0.mod_add. apply Nat.mod_small. lia.
Qed.

Ltac mod_elim :=
  repeat match goal with
  | |- context [(?a mod ?C)%nat] =>
      lazymatch a with context [(_ mod _)%nat] => fail | _ => idtac end;
      rewrite (mod_small_cases a C) by lia;
      destruct (Nat.ltb_spec a C)
  | H : context [(?a mod ?C)%nat] |- _ =>
      lazymatch a with context [(_ mod _)%nat] => fail | _ => idtac end;
      rewrite (mod_small_cases a C) in H by lia;
      destruct (Nat.ltb_spec a C)
  end.

Lemma mapM_seq_lookup {B} (f : nat -> option B) (s n : nat) :
  (forall i, (i < n)%nat -> is_Some (f (s + i)%nat)) ->
  exists xs, mapM f (seq s n) = Some xs /\ length xs = n /\
    forall i, (i < n)%nat -> xs !! i = f (s + i)%nat.
Proof.
  revert s. induction n as [|n IH]; intros s Hf.
  - exists []. split; [done|]. split; [done|]. intros; lia.
  - destruct (Hf 0%nat ltac:(lia)) as [y Hy].
    destruct (IH (S s)) as (xs & Hxs & Hlen & Hl).
    { intros i Hi. replace (S s + i)%nat with (s + S i)%nat by lia. apply Hf. lia. }
    exists (y :: xs). cbn [seq mapM]. rewrite Nat.add_0_r in Hy.
    rewrite Hy. simpl. rewrite Hxs. simpl. split; [done|]. split; [simpl; lia|].
    intros [|i] Hi; simpl.
    + by rewrite Nat.add_0_r.
    + rewrite Hl by lia. f_equal. lia.
Qed.

Lemma GetAll_lookup cb :
  buffer_wf cb ->
  exists xs, GetAll cb = Some xs /\ length xs = size cb /\
    forall i, (i < size cb)%nat -> xs !! i = data cb !! ((head cb + i) mod maxSize cb)%nat.
Proof.
  intros (HC & Hlen & Hh & Hs & Ht). unfold GetAll.
  destruct (Nat.eqb_spec (size cb) 0) as [H0|H0].
  - exists []. rewrite H0. split; [done|]. split; [done|]. intros; lia.
  - destruct (mapM_seq_lookup
                (fun i => idx ← go_mod (head cb + i) (maxSize cb); data cb !! idx)
                0 (size cb)) as (xs & Hm & Hl & Hx).
    + intros i Hi. unfold go_mod.
      destruct (Nat.eqb_spec (maxSize cb) 0); [lia|]. simpl.
      apply lookup_lt_is_Some_2. rewrite Hlen. apply Nat.mod_upper_bound. lia.
    + exists xs. split; [done|]. split; [done|].
      intros i Hi. rewrite Hx by lia. unfold go_mod.
      destruct (Nat.eqb_spec (maxSize cb) 0); [lia|]. done.
Qed.

Lemma Add_spec m cb :
  buffer_wf cb ->
  exists cb', Add m cb = Some cb' /\ buffer_wf cb' /\
    maxSize cb' = maxSize cb /\
    size cb' = (if (size cb <? maxSize cb)%nat then size cb + 1 else size cb)%nat /\
    forall xs, GetAll cb = Some xs ->
      GetAll cb' = Some (if (size cb <? maxSize cb)%nat then xs ++ [m]
                         else drop 1 xs ++ [m]).
Proof.
  intros Hwf. pose proof Hwf as (HC & Hlen & Hh & Hs & Ht).
  destruct (GetAll_lookup cb Hwf) as (xs0 & Hg & Hl0 & Hx0).
  assert (Htl : (tail cb < maxSize cb)%nat) by (rewrite Ht; apply Nat.mod_upper_bound; lia).
  destruct (lookup_lt_is_Some_2 (data cb) (tail cb)) as [x Hx]; [lia|].
  unfold Add. rewrite Hx. unfold go_mod.
  destruct (Nat.eqb_spec (maxSize cb) 0); [lia|]. cbn [mbind option_bind].
  destruct (Nat.ltb_spec (size cb) (maxSize cb)) as [Hlt|Hge].
  - eexists. split; [reflexivity|].
    match goal with |- buffer_wf ?c /\ _ => set (cb' := c) end.
    assert (Hwf' : buffer_wf cb').
    { unfold buffer_wf; cbn. rewrite length_insert.
      split; [lia|]. split; [lia|]. split; [lia|]. split; [lia|].
      rewrite Ht. mod_elim; lia. }
    split; [done|]. split; [done|]. split; [done|].
    intros xs Hxs. rewrite Hg in Hxs. injection Hxs as <-.
    destruct (GetAll_lookup cb' Hwf') as (ys & Hg' & Hl' & Hy).
    rewrite Hg'. f_equal. cbn in Hl', Hy. apply list_eq. intros i.
    destruct (decide (i < size cb + 1)%nat) as [Hi|Hi].
    + rewrite Hy by lia. destruct (decide (i < size cb)%nat).
      * rewrite lookup_app_l by lia. rewrite Hx0 by lia.
        apply list_lookup_insert_ne. rewrite Ht. mod_elim; lia.
      * rewrite lookup_app_r by lia.
        replace (i - length xs0)%nat with 0%nat by lia. simpl.
        replace ((head cb + i) mod maxSize cb)%nat with (tail cb)
          by (rewrite Ht; f_equal; lia).
        apply list_lookup_insert_eq. lia.
    + rewrite !lookup_ge_None_2; [done| |]; rewrite ?length_app; simpl; lia.
  - assert (Hfull : size cb = maxSize cb) by lia.
    eexists. split; [reflexivity|].
    match goal with |- buffer_wf ?c /\ _ => set (cb' := c) end.
    assert (Hwf' : buffer_wf cb').
    { unfold buffer_wf; cbn. rewrite length_insert.
      split; [lia|]. split; [lia|]. split; [apply Nat.mod_upper_bound; lia|].
      split; [lia|].
      rewrite Ht, Hfull. mod_elim; lia. }
    split; [done|]. split; [done|]. split; [done|].
    intros xs Hxs. rewrite Hg in Hxs. injection Hxs as <-.
    destruct (GetAll_lookup cb' Hwf') as (ys & Hg' & Hl' & Hy).
    rewrite Hg'. f_equal. cbn in Hl', Hy. apply list_eq. intros i.
    destruct (decide (i < size cb)%nat) as [Hi|Hi].
    + rewrite Hy by lia. destruct (decide (i < size cb - 1)%nat).
      * rewrite lookup_app_l by (rewrite length_drop; lia).
        rewrite lookup_drop, Hx0 by lia.
        rewrite list_lookup_insert_ne.
        -- f_equal. mod_elim; lia.
        -- rewrite Ht, Hfull. mod_elim; lia.
      * rewrite lookup_app_r by (rewrite length_drop; lia).
        rewrite length_drop.
        replace (i - (length xs0 - 1))%nat with 0%nat by lia. simpl.
        replace (((head cb + 1) mod maxSize cb + i) mod maxSize cb)%nat with (tail cb)
          by (rewrite Ht, Hfull; mod_elim; lia).
        apply list_lookup_insert_eq. lia.
    + rewrite !lookup_ge_None_2; [done| |]; rewrite ?length_app, ?length_drop; simpl; lia.
Qed.

Lemma add_all_spec msgs cb xs :
  buffer_wf cb -> GetAll cb = Some xs ->
  exists cb', add_all msgs cb = Some cb' /\ buffer_wf cb' /\
    maxSize cb' = maxSize cb /\
    GetAll cb' = Some (drop (length (xs ++ msgs) - maxSize cb) (xs ++ msgs)).
Proof.
  revert cb xs. induction msgs as [|m ms IH]; intros cb xs Hwf Hg.
  - exists cb. split; [done|]. split; [done|]. split; [done|].
    rewrite app_nil_r, Hg. f_equal.
    destruct (GetAll_lookup cb Hwf) as (xs' & Hg' & Hl & _).
    rewrite Hg in Hg'. injection Hg' as <-.
    destruct Hwf as (_ & _ & _ & Hs & _).
    by replace (length xs - maxSize cb)%nat with 0%nat by lia.
  - destruct (GetAll_lookup cb Hwf) as (xs' & Hg' & Hl & _).
    rewrite Hg in Hg'. injection Hg' as <-.
    destruct (Add_spec m cb Hwf) as (cb1 & Hadd & Hwf1 & Hmax1 & _ & Hg1).
    specialize (Hg1 xs Hg).
    destruct (IH cb1 _ Hwf1 Hg1) as (cb' & Hall & Hwf' & Hmax' & Hg').
    exists cb'. cbn [add_all]. rewrite Hadd. cbn [mbind option_bind].
    split; [done|]. split; [done|]. split; [lia|]. rewrite Hg', Hmax1. f_equal.
    pose proof Hwf as (HC & _ & _ & Hs & _).
    destruct (Nat.ltb_spec (size cb) (maxSize cb)).
    + by rewrite <- app_assoc.
    + rewrite !length_app, length_drop. cbn [length].
      rewrite <- app_assoc. cbn [app].
      rewrite <- (drop_app_le xs (m :: ms) 1) by lia.
      rewrite drop_drop. f_equal. lia.
Qed.

Lemma NewCircularBuffer_wf (C : Z) :
  1 <= C ->
  exists cb, NewCircularBuffer C = Some cb /\ buffer_wf cb /\
    maxSize cb = Z.to_nat C /\ GetAll cb = Some [].
Proof.
  intros HC. unfold NewCircularBuffer.
  destruct (Z.ltb_spec C 0); [lia|].
  eexists. split; [reflexivity|]. unfold buffer_wf; cbn.
  rewrite repeat_length. split; [|done].
  repeat split; try lia. rewrite Nat.Div0.mod_0_l. done.
Qed.

(** ** C2: the ring buffer keeps the last C messages *)

(** C2. For a capacity [C >= 1] and any sequence of appends to a new
    buffer (so after every prefix of it too), the appends succeed, the size
    stays within [0 .. C], and [GetAll] returns exactly the last [min(N, C)]
    appended messages in append order: for [N > C], the last [C]. *)
Theorem ring_buffer_keeps_last (C : Z) (msgs : list CM.ChatMessage) :
  1 <= C ->
  exists cb, (cb0 ← NewCircularBuffer C; add_all msgs cb0) = Some cb /\
    (0 <= size cb <= Z.to_nat C)%nat /\
    GetAll cb = Some (drop (length msgs - Z.to_nat C) msgs) /\
    (Z.to_nat C < length msgs ->
       length (drop (length msgs - Z.to_nat C) msgs) = Z.to_nat C)%nat.
Proof.
  intros HC. destruct (NewCircularBuffer_wf C HC) as (cb0 & Hn & Hwf0 & Hmax0 & Hg0).
  destruct (add_all_spec msgs cb0 [] Hwf0 Hg0) as (cb & Hall & Hwf & Hmax & Hg).
  exists cb. rewrite Hn. cbn [mbind option_bind]. split; [done|].
  destruct Hwf as (_ & _ & _ & Hs & _).
  split; [lia|]. split.
  - rewrite Hg, Hmax0. done.
  - intros Hlt. rewrite length_drop. lia.
Qed.

Lemma ring_buffer_keeps_last_witness :
  exists cb, (cb0 ← NewCircularBuffer 2;
              add_all [zeroMessage; zeroMessage; zeroMessage] cb0) = Some cb /\
    (0 <= size cb <= Z.to_nat 2)%nat /\
    GetAll cb = Some (drop (length [zeroMessage; zeroMessage; zeroMessage] - Z.to_nat 2)
                           [zeroMessage; zeroMessage; zeroMessage]) /\
    (Z.to_nat 2 < length [zeroMessage; zeroMessage; zeroMessage] ->
       length (drop (length [zeroMessage; zeroMessage; zeroMessage] - Z.to_nat 2)
                 [zeroMessage; zeroMessage; zeroMessage]) = Z.to_nat 2)%nat.
Proof. apply (ring_buffer_keeps_last 2). lia. Defined.

Lemma mapM_ext_eq {A B} (f g : A -> option B) (l : list A) :
  (forall x, f x = g x) -> mapM f l = mapM g l.
Proof.
  intros Hfg. induction l as [|x l IH]; [done|]. cbn [mapM]. by rewrite Hfg, IH.
Qed.

(** ** C8: [GetRecent] *)

(** C8 (amended). For every buffer state: [GetRecent n] returns the empty
    list when the buffer is empty or [n = 0]; for [n < 0] on a non-empty
    buffer it fails ([make] with a negative length panics); for every
    [n >= size] it returns the same as [GetAll]. *)
Theorem GetRecent_cases (cb : CircularBuffer) (n : Z) :
  ((size cb = 0%nat \/ n = 0) -> GetRecent n cb = Some []) /\
  (n < 0 -> size cb <> 0%nat -> GetRecent n cb = None) /\
  (Z.of_nat (size cb) <= n -> GetRecent n cb = GetAll cb).
Proof.
  unfold GetRecent, GetAll.
  destruct (Nat.eqb_spec (size cb) 0) as [H0|H0].
  { split; [done|]. split; [done|]. done. }
  split; [|split].
  - intros [?| ->]; [done|].
    destruct (Z.ltb_spec (Z.of_nat (size cb)) 0); [lia|]. done.
  - intros Hn _. destruct (Z.ltb_spec (Z.of_nat (size cb)) n); [lia|].
    destruct (Z.ltb_spec n 0); [done|lia].
  - intros Hn.
    assert (Hc : (if Z.of_nat (size cb) <? n then Z.of_nat (size cb) else n)
                 = Z.of_nat (size cb)) by (destruct (Z.ltb_spec (Z.of_nat (size cb)) n); lia).
    rewrite Hc. destruct (Z.ltb_spec (Z.of_nat (size cb)) 0); [lia|].
    rewrite Nat2Z.id, Nat.sub_diag. apply mapM_ext_eq. intros i. by rewrite Nat.add_0_r.
Qed.

Lemma GetRecent_cases_witness :
  (cb ← NewCircularBuffer 2; cb' ← Add zeroMessage cb; GetRecent 5 cb') =
  (cb ← NewCircularBuffer 2; cb' ← Add zeroMessage cb; GetAll cb').
Proof.
  cbn [NewCircularBuffer mbind option_bind Z.ltb Z.compare].
  destruct (Add zeroMessage _) as [cb'|] eqn:E; [|done].
  apply (GetRecent_cases cb' 5).
  vm_compute in E. injection E as <-. vm_compute. intros Hx; discriminate.
Defined.

(** C8 (as stated, refuted). On a buffer holding one message,
    [GetRecent (-1)] fails instead of returning the empty list. *)
Lemma GetRecent_negative_counterexample :
  (cb ← NewCircularBuffer 2; cb' ← Add zeroMessage cb; GetRecent (-1) cb') = None.
Proof. reflexivity. Qed.

(** ** C3: [ChatRoom.AddMessage] *)

(** C3. On a room whose buffer is well formed (capacity at least 1, as
    [NewChatRoom] with a positive capacity creates it and [AddMessage] keeps
    it), [AddMessage] never fails; when the buffer is full the eldest
    message is dropped and the new one appended, otherwise it is appended;
    in both cases bytes-used grows by exactly the new message's size
    estimate: nothing is deducted for the evicted message, unlike
    [CleanupOldMessages], which deducts 500 per removed message. *)
Theorem AddMessage_full_no_deduction now msg cr xs :
  buffer_wf (Room.Messages cr) -> GetAll (Room.Messages cr) = Some xs ->
  exists cr', AddMessage now msg cr = Some cr' /\
    buffer_wf (Room.Messages cr') /\
    GetAll (Room.Messages cr') =
      Some (if (size (Room.Messages cr) <? maxSize (Room.Messages cr))%nat
            then xs ++ [msg] else drop 1 xs ++ [msg]) /\
    Room.BytesUsed cr' = Room.BytesUsed cr + msgSize msg /\
    Room.MessageCount cr' = Room.MessageCount cr + 1 /\
    Room.LastActivity cr' = now.
Proof.
  intros Hwf Hg.
  destruct (Add_spec msg _ Hwf) as (cb' & Hadd & Hwf' & _ & _ & Hg').
  unfold AddMessage. rewrite Hadd. cbn [mbind option_bind].
  eexists. split; [reflexivity|]. cbn. split; [done|].
  split; [by apply Hg'|]. done.
Qed.

Definition full_room : Room.ChatRoom :=
  {| Room.StreamKey := "s"; Room.LastActivity := 0; Room.MessageCount := 1;
     Room.BytesUsed := 100;
     Room.Messages := {| data := [zeroMessage]; maxSize := 1; head := 0;
                         tail := 0; size := 1 |} |}.

Lemma AddMessage_full_no_deduction_witness :
  buffer_wf (Room.Messages full_room) /\
  GetAll (Room.Messages full_room) = Some [zeroMessage] /\
  exists cr', AddMessage 7 zeroMessage full_room = Some cr' /\
    buffer_wf (Room.Messages cr') /\
    GetAll (Room.Messages cr') =
      Some (if (size (Room.Messages full_room) <? maxSize (Room.Messages full_room))%nat
            then [zeroMessage] ++ [zeroMessage] else drop 1 [zeroMessage] ++ [zeroMessage]) /\
    Room.BytesUsed cr' = Room.BytesUsed full_room + msgSize zeroMessage /\
    Room.MessageCount cr' = Room.MessageCount full_room + 1 /\
    Room.LastActivity cr' = 7.
Proof.
  assert (Hwf : buffer_wf (Room.Messages full_room)) by (unfold buffer_wf; cbn; lia).
  split; [exact Hwf|]. split; [reflexivity|].
  apply (AddMessage_full_no_deduction 7 zeroMessage full_room [zeroMessage] Hwf).
  reflexivity.
Defined.

(** C3, a concrete run. A room of capacity 1 holding one message:
    appending a second evicts the first, yet bytes-used is the sum of both
    estimates, 500 bytes higher than with the average-size deduction. *)
Lemma AddMessage_counterexample :
  let m1 := {| CM.ID := "1"; CM.StreamKey := "s"; CM.UserID := "a";
               CM.Username := "Ann"; CM.Message := "hi"; CM.Timestamp := 1 |} in
  let m2 := {| CM.ID := "2"; CM.StreamKey := "s"; CM.UserID := "a";
               CM.Username := "Ann"; CM.Message := "yo"; CM.Timestamp := 2 |} in
  option_map (fun cr => (option_map (map CM.ID) (GetAll (Room.Messages cr)),
                         Room.BytesUsed cr))
    (cr0 ← NewChatRoom 0 "s" 1; cr1 ← AddMessage 1 m1 cr0; AddMessage 2 m2 cr1) =
    Some (Some ["2"%string], msgSize m1 + msgSize m2) /\
  msgSize m1 + msgSize m2 <> msgSize m1 + msgSize m2 - 500.
Proof. vm_compute. split; [reflexivity|discriminate]. Qed.

(** ** The WebSocket message handler *)

(** A decoded JSON value, as far as [handleChatMessage] inspects it; an
    object is a list of its (distinct) keys and values. *)
#[warnings="-register-all"]
Inductive JSON :=
| JStr (s : string)
| JObj (fields : list (string * JSON))
| JOther.

(** [m[k]] on a decoded object. *)
Definition field (k : string) (fields : list (string * JSON)) : option JSON :=
  option_map snd (List.find (fun kv => String.eqb kv.1 k) fields).

Module WS.
(** [WSMessage] ([Type] is a keyword of Rocq; the timestamp is omitted);
    [Data] carries a chat message or nothing. *)
Record WSMessage := {
  Type_ : string;
  Data : option CM.ChatMessage;
  Error : string
}.
End WS.

Module Conn.
(** [Connection]: the fields read by [handleChatMessage]. *)
Record Connection := {
  UserID : string;
  Username : string;
  StreamKey : string
}.
End Conn.

(** What the handler does to the outside world: a frame pushed on the
    sender's own [Send] channel, or a frame offered to every connection of
    a stream ([broadcastToRoom], sender included). *)
Inductive Effect :=
| SendSelf (m : WS.WSMessage)
| Broadcast (streamKey : string) (m : WS.WSMessage).

(** The shared state the handler touches: the rate limiter's records and
    the manager's rooms (rooms are shared by pointer, so an updated room
    replaces its entry). *)
Record Server := {
  limiter : gmap string UserRateRecord;
  rooms : gmap string Room.ChatRoom
}.

(** [c.sendError(errorMsg)] *)
Definition sendError (errorMsg : string) : Effect :=
  SendSelf {| WS.Type_ := "error"; WS.Data := None; WS.Error := errorMsg |}.

(** [m.GetOrCreateRoom(streamKey)] *)
Definition GetOrCreateRoom (config : ChatConfig) (now : Z) (streamKey : string)
    (rs : gmap string Room.ChatRoom) : option Room.ChatRoom :=
  match rs !! streamKey with
  | Some room => Some room
  | None => NewChatRoom now streamKey (MaxMessagesPerStream config)
  end.

(** [m.AddMessage(streamKey, userID, username, message)], the fresh uuid
    being [id]; it never returns an error. *)
Definition Manager_AddMessage (config : ChatConfig) (now : Z) (id : string)
    (streamKey userID username message : string) (rs : gmap string Room.ChatRoom)
    : option (CM.ChatMessage * gmap string Room.ChatRoom) :=
  room ← GetOrCreateRoom config now streamKey rs;
  let msg := {| CM.ID := id; CM.StreamKey := streamKey; CM.UserID := userID;
                CM.Username := username; CM.Message := message;
                CM.Timestamp := now |} in
  room' ← AddMessage now msg room;
  Some (msg, <[streamKey := room']> rs).

(** [c.handleChatMessage(msg)]; [None] is a panic. *)
Definition handleChatMessage (config : ChatConfig) (now : Z) (id : string)
    (c : Conn.Connection) (msg : list (string * JSON)) (st : Server)
    : option (list Effect * Server) :=
  if String.eqb (Conn.UserID c) "" then Some ([sendError "Not joined to chat"], st)
  else match field "data" msg with
  | Some (JObj data) =>
      match field "message" data with
      | Some (JStr message) =>
          if String.eqb message "" then Some ([sendError "Invalid message content"], st)
          else
            let '((allowed, rateLimitErr), rl') :=
              CheckMessage config (limiter st) (Conn.UserID c) message now in
            let st' := {| limiter := rl'; rooms := rooms st |} in
            if negb allowed then
              match rateLimitErr with
              | Some e =>
                  Some ([SendSelf {| WS.Type_ := "rate_limit"; WS.Data := None;
                                     WS.Error := Message e |}], st')
              | None => None                     (* rateLimitErr.Message on nil *)
              end
            else
              '(chatMsg, rs') ← Manager_AddMessage config now id (Conn.StreamKey c)
                                  (Conn.UserID c) (Conn.Username c) message (rooms st');
              Some ([Broadcast (Conn.StreamKey c)
                       {| WS.Type_ := "message"; WS.Data := Some chatMsg;
                          WS.Error := "" |}],
                    {| limiter := rl'; rooms := rs' |})
      | _ => Some ([sendError "Invalid message content"], st)
      end
  | _ => Some ([sendError "Invalid message data"], st)
  end.

(** ** C5: a denied chat message *)

Lemma deny_has_error config now text r :
  fst (fst (checkRecord config now text r)) = false ->
  exists e, snd (fst (checkRecord config now text r)) = Some e /\
    Some (Code e) = tier_code (first_match (tier_trigger config now text (cleanup now r))).
Proof.
  destruct (checkRecord_table config now text r) as [Hc _].
  revert Hc. unfold outcome_code.
  destruct (fst (checkRecord config now text r)) as [b [e|]]; cbn;
    intros Hc Hb; subst b; injection Hc as Ha Hcode.
  - exists e. split; [done|]. done.
  - destruct (first_match _); done.
Qed.

(** C5 (amended). When a joined session's [message] frame carries a
    non-empty text and the rate limiter denies it, whichever tier denies
    it, the handler's only effect is one frame on the sender's own channel,
    of type [rate_limit], whose error is the human-readable message of the
    deny (its code being the tier's code); nothing is broadcast and the
    rooms are unchanged, only the limiter's record is stored back. *)
Theorem handleChatMessage_deny config now id c msg data message st :
  Conn.UserID c <> ""%string ->
  field "data" msg = Some (JObj data) ->
  field "message" data = Some (JStr message) ->
  message <> ""%string ->
  fst (fst (CheckMessage config (limiter st) (Conn.UserID c) message now)) = false ->
  exists e,
    snd (fst (CheckMessage config (limiter st) (Conn.UserID c) message now)) = Some e /\
    Some (Code e) = tier_code (first_match (tier_trigger config now message
                      (cleanup now (getOrCreateRecord (limiter st) (Conn.UserID c) now)))) /\
    handleChatMessage config now id c msg st =
      Some ([SendSelf {| WS.Type_ := "rate_limit"; WS.Data := None;
                         WS.Error := Message e |}],
            {| limiter := snd (CheckMessage config (limiter st) (Conn.UserID c) message now);
               rooms := rooms st |}).
Proof.
  intros Hu Hd Hm Hne Hden.
  rewrite CheckMessage_unfold in Hden |- *. cbn [fst snd] in Hden |- *.
  destruct (deny_has_error _ _ _ _ Hden) as (e & He & Hcode).
  exists e. split; [done|]. split; [done|].
  unfold handleChatMessage.
  destruct (String.eqb_spec (Conn.UserID c) ""); [done|].
  rewrite Hd, Hm.
  destruct (String.eqb_spec message ""); [done|].
  rewrite CheckMessage_unfold. cbn [fst snd].
  destruct (checkRecord config now message _) as [[b err] r'] eqn:Ec.
  cbn in Hden, He. subst b err. done.
Qed.

Definition long_text : string := String.concat "" (repeat "a" 501).

Definition chat_frame (text : string) : list (string * JSON) :=
  [("type", JStr "message"); ("data", JObj [("message", JStr text)])].

Definition alice : Conn.Connection :=
  {| Conn.UserID := "alice"; Conn.Username := "Alice"; Conn.StreamKey := "s" |}.

Lemma handleChatMessage_deny_witness :
  Conn.UserID alice <> ""%string /\
  field "data" (chat_frame long_text) = Some (JObj [("message", JStr long_text)]) /\
  field "message" [("message", JStr long_text)] = Some (JStr long_text) /\
  long_text <> ""%string /\
  fst (fst (CheckMessage DefaultConfig ∅ "alice" long_text 1000)) = false /\
  exists e,
    snd (fst (CheckMessage DefaultConfig ∅ "alice" long_text 1000)) = Some e /\
    Some (Code e) = tier_code (first_match (tier_trigger DefaultConfig 1000 long_text
                      (cleanup 1000 (getOrCreateRecord ∅ "alice" 1000)))) /\
    handleChatMessage DefaultConfig 1000 "id" alice (chat_frame long_text)
      {| limiter := ∅; rooms := ∅ |} =
      Some ([SendSelf {| WS.Type_ := "rate_limit"; WS.Data := None;
                         WS.Error := Message e |}],
            {| limiter := snd (CheckMessage DefaultConfig ∅ "alice" long_text 1000);
               rooms := ∅ |}).
Proof.
  assert (H1 : Conn.UserID alice <> ""%string) by discriminate.
  assert (H2 : field "data" (chat_frame long_text) = Some (JObj [("message", JStr long_text)]))
    by reflexivity.
  assert (H3 : field "message" [("message", JStr long_text)] = Some (JStr long_text))
    by reflexivity.
  assert (H4 : long_text <> ""%string) by discriminate.
  assert (H5 : fst (fst (CheckMessage DefaultConfig ∅ "alice" long_text 1000)) = false)
    by (vm_compute; reflexivity).
  do 5 (split; [assumption|]).
  exact (handleChatMessage_deny DefaultConfig 1000 "id" alice (chat_frame long_text)
           _ long_text {| limiter := ∅; rooms := ∅ |} H1 H2 H3 H4 H5).
Defined.

(** C5 (as stated, refuted). A 501-character message (tier T1, code
    [MESSAGE_TOO_LONG]) is answered with a [rate_limit] frame, not an
    [error] frame. *)
Lemma handleChatMessage_error_frame_counterexample :
  option_map (fun '(effs, _) => effs)
    (handleChatMessage DefaultConfig 1000 "id" alice (chat_frame long_text)
       {| limiter := ∅; rooms := ∅ |}) =
  Some [SendSelf {| WS.Type_ := "rate_limit"; WS.Data := None;
                    WS.Error := "Message is too long. Maximum 500 characters." |}] /\
  option_map Code (snd (fst (CheckMessage DefaultConfig ∅ "alice" long_text 1000))) =
    Some "MESSAGE_TOO_LONG"%string.
Proof. split; vm_compute; reflexivity. Qed.

(** ** The monitor worker and the rooms lock *)

Module Monitor.

(** [mt.IsCritical()]: [float64(TotalBytes)/float64(MaxBytes) > 0.9],
    decided on the exact quotient (a zero [MaxBytes] gives +Inf, or NaN
    for 0/0). *)
Definition IsCritical (TotalBytes MaxBytes : Z) : bool :=
  if MaxBytes =? 0 then 0 <? TotalBytes
  else if 0 <? MaxBytes then 9 * MaxBytes <? 10 * TotalBytes
  else 10 * TotalBytes <? 9 * MaxBytes.

(** Where the monitor goroutine is inside one tick, [m.updateMemoryStats()]:
    before [m.roomsMux.RLock()]; holding the read lock while it sums the
    rooms and tests the tracker; inside [performEmergencyCleanup] waiting on
    [m.roomsMux.Lock()]; holding the write lock while it evicts every room;
    at the deferred [RUnlock]; after the tick. *)
Inductive WPC := Start | Stats | WaitLock | Evict | RUnlockDeferred | Done.

(** [m.roomsMux] (a [sync.RWMutex]: reader count and writer flag), the
    monitor's program counter, the locks held by the other goroutines, and
    the number of emergency evictions performed. *)
Record Sys := {
  readers : nat;
  writer : bool;
  wpc : WPC;
  env_readers : nat;
  env_writer : bool;
  evictions : nat
}.

(** One step of the monitor (the tick, with the tracker's verdict
    [critical]) or of another goroutine using the lock as Go allows:
    [Lock] waits for no reader and no writer, [RLock] for no writer. *)
Inductive step (critical : bool) : Sys -> Sys -> Prop :=
| w_rlock r ew er ev :
    step critical {| readers := r; writer := false; wpc := Start;
                     env_readers := er; env_writer := ew; evictions := ev |}
                  {| readers := S r; writer := false; wpc := Stats;
                     env_readers := er; env_writer := ew; evictions := ev |}
| w_stats r w er ew ev :
    step critical {| readers := r; writer := w; wpc := Stats;
                     env_readers := er; env_writer := ew; evictions := ev |}
                  {| readers := r; writer := w;
                     wpc := if critical then WaitLock else RUnlockDeferred;
                     env_readers := er; env_writer := ew; evictions := ev |}
| w_lock er ew ev :
    step critical {| readers := 0; writer := false; wpc := WaitLock;
                     env_readers := er; env_writer := ew; evictions := ev |}
                  {| readers := 0; writer := true; wpc := Evict;
                     env_readers := er; env_writer := ew; evictions := ev |}
| w_evict r er ew ev :
    step critical {| readers := r; writer := true; wpc := Evict;
                     env_readers := er; env_writer := ew; evictions := ev |}
                  {| readers := r; writer := false; wpc := RUnlockDeferred;
                     env_readers := er; env_writer := ew; evictions := S ev |}
| w_runlock r w er ew ev :
    step critical {| readers := S r; writer := w; wpc := RUnlockDeferred;
                     env_readers := er; env_writer := ew; evictions := ev |}
                  {| readers := r; writer := w; wpc := Done;
                     env_readers := er; env_writer := ew; evictions := ev |}
| e_rlock r p er ew ev :
    step critical {| readers := r; writer := false; wpc := p;
                     env_readers := er; env_writer := ew; evictions := ev |}
                  {| readers := S r; writer := false; wpc := p;
                     env_readers := S er; env_writer := ew; evictions := ev |}
| e_runlock r w p er ew ev :
    step critical {| readers := S r; writer := w; wpc := p;
                     env_readers := S er; env_writer := ew; evictions := ev |}
                  {| readers := r; writer := w; wpc := p;
                     env_readers := er; env_writer := ew; evictions := ev |}
| e_lock p er ev :
    step critical {| readers := 0; writer := false; wpc := p;
                     env_readers := er; env_writer := false; evictions := ev |}
                  {| readers := 0; writer := true; wpc := p;
                     env_readers := er; env_writer := true; evictions := ev |}
| e_unlock r p er ev :
    step critical {| readers := r; writer := true; wpc := p;
                     env_readers := er; env_writer := true; evictions := ev |}
                  {| readers := r; writer := false; wpc := p;
                     env_readers := er; env_writer := false; evictions := ev |}.

(** Whether the monitor holds the read lock at this point of the tick. *)
Definition holds_read (p : WPC) : bool :=
  match p with Stats | WaitLock | Evict | RUnlockDeferred => true | _ => false end.

(** The lock's counters are the sum of what the goroutines hold. *)
Definition consistent (s : Sys) : Prop :=
  readers s = (env_readers s + if holds_read (wpc s) then 1 else 0)%nat /\
  writer s = (env_writer s || match wpc s with Evict => true | _ => false end).

(** A tick starting with the lock held only by other goroutines. *)
Definition tick_start (er : nat) (ew : bool) : Sys :=
  {| readers := er; writer := ew; wpc := Start;
     env_readers := er; env_writer := ew; evictions := 0 |}.

End Monitor.

(** ** C9: the emergency eviction of the monitor tick *)

Section MonitorProofs.
Import Monitor.

Definition stuck_inv (s : Sys) : Prop :=
  consistent s /\ evictions s = 0%nat /\
  (wpc s = Start \/ wpc s = Stats \/ wpc s = WaitLock).

Lemma stuck_inv_step s s' : stuck_inv s -> step true s s' -> stuck_inv s'.
Proof.
  intros (Hc & Hev & Hp) Hst. unfold consistent in Hc.
  inversion Hst; subst; cbn in *; unfold stuck_inv, consistent; cbn.
  - destruct Hc as [Hr Hw]. rewrite Nat.add_0_r in Hr. subst. split; [split; [lia|done]|].
    split; [done|]. right; left; done.
  - split; [done|]. split; [done|]. right; right; done.
  - destruct Hc as [Hr _]. lia.
  - destruct Hp as [|[|]]; discriminate.
  - destruct Hp as [|[|]]; discriminate.
  - destruct Hc as [Hr Hw]. split; [split; [lia|done]|]. done.
  - destruct Hc as [Hr Hw]. split; [split; [lia|done]|]. done.
  - destruct Hc as [Hr Hw]. split; [split; [lia|]|]; [|done].
    destruct Hp as [-> | [-> | ->]]; done.
  - destruct Hc as [Hr Hw]. split; [split; [lia|]|]; [|done].
    destruct Hp as [-> | [-> | ->]]; done.
Qed.

Lemma stuck_inv_rtc s s' : stuck_inv s -> rtc (step true) s s' -> stuck_inv s'.
Proof.
  intros Hi Hr. induction Hr as [x|x y z Hxy _ IH]; [done|].
  apply IH. by apply (stuck_inv_step x).
Qed.

(** C9 (what the code does). When the tracker is critical at a tick,
    [updateMemoryStats] calls [performEmergencyCleanup] while its deferred
    [RUnlock] is still pending, so its [Lock] waits for a reader that is
    itself: in every run, whatever the other goroutines do with the lock,
    the monitor never gets past [Lock], never evicts anything and never
    finishes the tick. *)
Theorem emergency_cleanup_never_runs tb mb er ew s :
  IsCritical tb mb = true ->
  rtc (step (IsCritical tb mb)) (tick_start er ew) s ->
  evictions s = 0%nat /\ (wpc s = Start \/ wpc s = Stats \/ wpc s = WaitLock).
Proof.
  intros Hcrit Hr. rewrite Hcrit in Hr.
  apply (stuck_inv_rtc (tick_start er ew) s ltac:(unfold stuck_inv, consistent; cbn; split; [split|]; [lia|by destruct ew|auto]) Hr).
Qed.

Lemma emergency_cleanup_never_runs_witness :
  IsCritical 95 100 = true /\
  rtc (step (IsCritical 95 100)) (tick_start 0 false)
      {| readers := 1; writer := false; wpc := WaitLock;
         env_readers := 0; env_writer := false; evictions := 0 |} /\
  evictions {| readers := 1; writer := false; wpc := WaitLock;
               env_readers := 0; env_writer := false; evictions := 0 |} = 0%nat /\
  (WaitLock = Start \/ WaitLock = Stats \/ WaitLock = WaitLock).
Proof.
  assert (Hc : IsCritical 95 100 = true) by reflexivity.
  assert (Hr : rtc (step (IsCritical 95 100)) (tick_start 0 false)
      {| readers := 1; writer := false; wpc := WaitLock;
         env_readers := 0; env_writer := false; evictions := 0 |}).
  { rewrite Hc. eapply rtc_l; [apply w_rlock|].
    eapply rtc_l; [apply (w_stats true)|]. apply rtc_refl. }
  split; [exact Hc|]. split; [exact Hr|].
  exact (emergency_cleanup_never_runs 95 100 0 false _ Hc Hr).
Defined.

End MonitorProofs.

(** * Further operations of the chat package *)

(** Go's [int] and [time.Duration] (64 bits) arithmetic wraps around. *)
Definition wrap64 (z : Z) : Z := (z + 2 ^ 63) mod 2 ^ 64 - 2 ^ 63.

Lemma wrap64_id z : - 2 ^ 63 <= z < 2 ^ 63 -> wrap64 z = z.
Proof. intros H. unfold wrap64. rewrite Z.mod_small; lia. Qed.

(** ** Ring buffer: size, clear and age-based removal *)

(** [cb.Size()] *)
Definition Size (cb : CircularBuffer) : nat := size cb.

(** [cb.Clear()]: the slots keep their old contents. *)
Definition Clear (cb : CircularBuffer) : CircularBuffer :=
  {| data := data cb; maxSize := maxSize cb; head := 0; tail := 0; size := 0 |}.

(** The loop of [RemoveOlderThan]; every iteration that goes on lowers
    [size] by one, so [fuel = size] never runs out before [size = 0]. *)
Fixpoint remove_loop (cutoff : Z) (fuel : nat) (cb : CircularBuffer) (removed : nat)
    : option (nat * CircularBuffer) :=
  match fuel with
  | O => Some (removed, cb)
  | S fuel' =>
      if (size cb =? 0)%nat then Some (removed, cb)
      else
        msg ← data cb !! head cb;                 (* cb.data[cb.head] *)
        if cutoff <? CM.Timestamp msg then Some (removed, cb)   (* After(cutoff): break *)
        else
          head' ← go_mod (head cb + 1) (maxSize cb);
          remove_loop cutoff fuel'
            {| data := data cb; maxSize := maxSize cb; head := head';
               tail := tail cb; size := size cb - 1 |} (S removed)
  end.

(** [time.Now().Add(-duration)]: the negation of the [Duration] wraps in
    64 bits ([-math.MinInt64] is [math.MinInt64]); [Time.Add] itself is
    exact for times of this range. *)
Definition older_cutoff (now duration : Z) : Z := now + wrap64 (- duration).

(** [cb.RemoveOlderThan(duration)] at wall time [now]: the number removed
    and the buffer afterwards. *)
Definition RemoveOlderThan (now duration : Z) (cb : CircularBuffer)
    : option (nat * CircularBuffer) :=
  if (size cb =? 0)%nat then Some (0%nat, cb)
  else remove_loop (older_cutoff now duration) (size cb) cb 0.

(** [cr.CleanupOldMessages(retention)] at wall time [now]. *)
Definition CleanupOldMessages (now retention : Z) (cr : Room.ChatRoom)
    : option (nat * Room.ChatRoom) :=
  '(removed, buf) ← RemoveOlderThan now retention (Room.Messages cr);
  let bytes :=
    if (0 <? removed)%nat then
      let avgMessageSize := 500 in
      let b := Room.BytesUsed cr - Z.of_nat removed * avgMessageSize in
      if b <? 0 then 0 else b
    else Room.BytesUsed cr in
  Some (removed, {| Room.StreamKey := Room.StreamKey cr; Room.Messages := buf;
                    Room.LastActivity := Room.LastActivity cr;
                    Room.MessageCount := Room.MessageCount cr;
                    Room.BytesUsed := bytes |}).

(** [cr.GetMessages(recentN)] *)
Definition GetMessages (recentN : Z) (cr : Room.ChatRoom) : option (list CM.ChatMessage) :=
  if 0 <? recentN then GetRecent recentN (Room.Messages cr)
  else GetAll (Room.Messages cr).

(** ** Lemmas on the further buffer operations *)

Lemma GetAll_wf_eq cb xs :
  buffer_wf cb -> GetAll cb = Some xs ->
  length xs = size cb /\
  forall i, (i < size cb)%nat -> xs !! i = data cb !! ((head cb + i) mod maxSize cb)%nat.
Proof.
  intros Hwf Hg. destruct (GetAll_lookup cb Hwf) as (ys & Hg' & Hl & Hy).
  rewrite Hg in Hg'. injection Hg' as <-. done.
Qed.

Lemma pop_spec cb xs :
  buffer_wf cb -> GetAll cb = Some xs -> size cb <> 0%nat ->
  data cb !! head cb = xs !! 0%nat /\
  go_mod (head cb + 1) (maxSize cb) = Some ((head cb + 1) mod maxSize cb)%nat /\
  buffer_wf {| data := data cb; maxSize := maxSize cb;
               head := ((head cb + 1) mod maxSize cb)%nat;
               tail := tail cb; size := size cb - 1 |} /\
  GetAll {| data := data cb; maxSize := maxSize cb;
            head := ((head cb + 1) mod maxSize cb)%nat;
            tail := tail cb; size := size cb - 1 |} = Some (drop 1 xs).
Proof.
  intros Hwf Hg Hs0. pose proof Hwf as (HC & Hlen & Hh & Hs & Ht).
  destruct (GetAll_wf_eq cb xs Hwf Hg) as [Hl Hx].
  split.
  { rewrite Hx by lia. rewrite Nat.add_0_r, Nat.mod_small by lia. done. }
  split.
  { unfold go_mod. destruct (Nat.eqb_spec (maxSize cb) 0); [lia|done]. }
  match goal with |- buffer_wf ?c /\ _ => set (cb' := c) end.
  assert (Hwf' : buffer_wf cb').
  { unfold buffer_wf; cbn. split; [lia|]. split; [lia|].
    split; [apply Nat.mod_upper_bound; lia|]. split; [lia|].
    rewrite Ht, Nat.Div0.add_mod_idemp_l. f_equal. lia. }
  split; [done|].
  destruct (GetAll_lookup cb' Hwf') as (ys & Hg' & Hl' & Hy).
  rewrite Hg'. f_equal. cbn in Hl', Hy. apply list_eq. intros i.
  destruct (decide (i < size cb - 1)%nat) as [Hi|Hi].
  - rewrite Hy, lookup_drop, Hx by lia.
    rewrite Nat.Div0.add_mod_idemp_l. f_equal. f_equal. lia.
  - rewrite !lookup_ge_None_2; [done| |]; rewrite ?length_drop; lia.
Qed.

Lemma remove_loop_spec cutoff fuel cb xs removed :
  buffer_wf cb -> GetAll cb = Some xs -> size cb = fuel ->
  exists k cb', remove_loop cutoff fuel cb removed = Some ((removed + k)%nat, cb') /\
    buffer_wf cb' /\ maxSize cb' = maxSize cb /\
    GetAll cb' = Some (drop k xs) /\
    (forall i m, (i < k)%nat -> xs !! i = Some m -> CM.Timestamp m <= cutoff) /\
    (k <= length xs)%nat /\
    (forall m, xs !! k = Some m -> cutoff < CM.Timestamp m).
Proof.
  revert cb xs removed. induction fuel as [|fuel IH]; intros cb xs removed Hwf Hg Hf.
  - exists 0%nat, cb. rewrite Nat.add_0_r. split; [done|]. split; [done|].
    split; [done|]. split; [done|]. split; [intros; lia|]. split; [lia|].
    destruct (GetAll_wf_eq cb xs Hwf Hg) as [Hl _].
    intros m Hm. apply lookup_lt_Some in Hm. lia.
  - destruct (GetAll_wf_eq cb xs Hwf Hg) as [Hl _].
    destruct (pop_spec cb xs Hwf Hg ltac:(lia)) as (H0 & Hgm & Hwf' & Hg').
    destruct xs as [|x xs']; [cbn in Hl; lia|].
    cbn [remove_loop]. destruct (Nat.eqb_spec (size cb) 0); [lia|].
    rewrite H0. cbn [mbind option_bind lookup list_lookup].
    destruct (Z.ltb_spec cutoff (CM.Timestamp x)).
    + exists 0%nat, cb. rewrite Nat.add_0_r. split; [done|]. split; [done|].
      split; [done|]. split; [done|]. split; [intros; lia|]. split; [lia|].
      intros m Hm. cbn in Hm. injection Hm as <-. done.
    + rewrite Hgm. cbn [mbind option_bind].
      destruct (IH _ xs' (S removed) Hwf' Hg' ltac:(cbn; lia))
        as (k & cb' & Hr & Hwf'' & Hmax & Hg'' & Hold & Hk & Hnew).
      exists (S k), cb'. rewrite Hr. split; [f_equal; f_equal; lia|].
      split; [done|]. split; [done|]. split; [done|].
      split; [|split; [cbn; lia|done]].
      intros [|i] m Hi Hm; cbn in Hm.
      * injection Hm as <-. done.
      * apply (Hold i); [lia|done].
Qed.

Lemma filter_all_true {A} (f : A -> bool) (l : list A) :
  (forall i x, l !! i = Some x -> f x = true) -> List.filter f l = l.
Proof.
  induction l as [|x l IH]; intros Hf; [done|]. cbn.
  rewrite (Hf 0%nat x eq_refl). f_equal. apply IH. intros i y Hy. by apply (Hf (S i)).
Qed.

Lemma filter_all_false {A} (f : A -> bool) (l : list A) :
  (forall i x, l !! i = Some x -> f x = false) -> List.filter f l = [].
Proof.
  induction l as [|x l IH]; intros Hf; [done|]. cbn.
  rewrite (Hf 0%nat x eq_refl). apply IH. intros i y Hy. by apply (Hf (S i)).
Qed.

Lemma filter_app_bool {A} (f : A -> bool) (l1 l2 : list A) :
  List.filter f (l1 ++ l2) = List.filter f l1 ++ List.filter f l2.
Proof. induction l1 as [|x l1 IH]; [done|]. cbn. destruct (f x); cbn; by rewrite IH. Qed.

(** Removal from the head, for a buffer whose timestamps are in order. *)
Definition ordered_by_time (xs : list CM.ChatMessage) : Prop :=
  forall i j mi mj, (i <= j)%nat -> xs !! i = Some mi -> xs !! j = Some mj ->
    CM.Timestamp mi <= CM.Timestamp mj.

(** ** [RemoveOlderThan] *)

Lemma remove_older_prefix now duration cb xs :
  buffer_wf cb -> GetAll cb = Some xs ->
  exists k cb', RemoveOlderThan now duration cb = Some (k, cb') /\
    buffer_wf cb' /\ maxSize cb' = maxSize cb /\
    GetAll cb' = Some (drop k xs) /\ (k <= length xs)%nat /\
    (forall i m, (i < k)%nat -> xs !! i = Some m -> CM.Timestamp m <= older_cutoff now duration) /\
    (forall m, xs !! k = Some m -> older_cutoff now duration < CM.Timestamp m).
Proof.
  intros Hwf Hg. unfold RemoveOlderThan.
  destruct (Nat.eqb_spec (size cb) 0) as [H0|H0].
  - destruct (GetAll_wf_eq cb xs Hwf Hg) as [Hl _].
    destruct xs; [|cbn in Hl; lia].
    exists 0%nat, cb. split; [done|]. split; [done|]. split; [done|].
    split; [done|]. split; [cbn; lia|]. split; [intros; lia|]. done.
  - destruct (remove_loop_spec (older_cutoff now duration) (size cb) cb xs 0 Hwf Hg eq_refl)
      as (k & cb' & Hr & Hwf' & Hmax & Hg' & Hold & Hk & Hnew).
    exists k, cb'. split; [done|]. done.
Qed.

(** On a well-formed buffer, [RemoveOlderThan] never fails and removes the
    longest run of oldest messages that are not after the cutoff
    [older_cutoff now duration] ([time.Now().Add(-duration)]: [now - duration]
    with the negation wrapping in 64 bits): it stops at the first newer message, even if older
    ones follow it. The buffer stays well formed. *)
Theorem RemoveOlderThan_prefix now duration cb xs :
  buffer_wf cb -> GetAll cb = Some xs ->
  exists k cb', RemoveOlderThan now duration cb = Some (k, cb') /\
    buffer_wf cb' /\ maxSize cb' = maxSize cb /\
    GetAll cb' = Some (drop k xs) /\ (k <= length xs)%nat /\
    (forall i m, (i < k)%nat -> xs !! i = Some m -> CM.Timestamp m <= older_cutoff now duration) /\
    (forall m, xs !! k = Some m -> older_cutoff now duration < CM.Timestamp m).
Proof. apply remove_older_prefix. Qed.

Lemma RemoveOlderThan_prefix_witness :
  let m1 := {| CM.ID := "1"; CM.StreamKey := "s"; CM.UserID := "a";
               CM.Username := "A"; CM.Message := "x"; CM.Timestamp := 10 |} in
  let m2 := {| CM.ID := "2"; CM.StreamKey := "s"; CM.UserID := "a";
               CM.Username := "A"; CM.Message := "y"; CM.Timestamp := 50 |} in
  let cb := {| data := [m1; m2]; maxSize := 2; head := 0; tail := 0; size := 2 |} in
  buffer_wf cb /\ GetAll cb = Some [m1; m2] /\
  exists k cb', RemoveOlderThan 60 20 cb = Some (k, cb') /\
    buffer_wf cb' /\ maxSize cb' = maxSize cb /\
    GetAll cb' = Some (drop k [m1; m2]) /\ (k <= length [m1; m2])%nat /\
    (forall i m, (i < k)%nat -> [m1; m2] !! i = Some m -> CM.Timestamp m <= older_cutoff 60 20) /\
    (forall m, [m1; m2] !! k = Some m -> older_cutoff 60 20 < CM.Timestamp m).
Proof.
  intros m1 m2 cb.
  assert (Hwf : buffer_wf cb) by (unfold buffer_wf; cbn; lia).
  assert (Hg : GetAll cb = Some [m1; m2]) by reflexivity.
  split; [exact Hwf|]. split; [exact Hg|].
  exact (RemoveOlderThan_prefix 60 20 cb [m1; m2] Hwf Hg).
Defined.

(** ** [RemoveOlderThan] on a time-ordered buffer *)

(** When the buffer's messages are in timestamp order (as appends at a
    monotone clock make them), [RemoveOlderThan] keeps exactly the messages
    strictly after the cutoff [older_cutoff now duration], in order, and reports the
    number of the others as removed. *)
Theorem RemoveOlderThan_ordered now duration cb xs :
  buffer_wf cb -> GetAll cb = Some xs -> ordered_by_time xs ->
  exists cb', RemoveOlderThan now duration cb =
      Some (Nat.sub (length xs)
              (length (List.filter (fun m => older_cutoff now duration <? CM.Timestamp m) xs)),
            cb') /\
    buffer_wf cb' /\
    GetAll cb' = Some (List.filter (fun m => older_cutoff now duration <? CM.Timestamp m) xs).
Proof.
  intros Hwf Hg Hord.
  destruct (remove_older_prefix now duration cb xs Hwf Hg)
    as (k & cb' & Hr & Hwf' & _ & Hg' & Hk & Hold & Hnew).
  assert (Hf : List.filter (fun m => older_cutoff now duration <? CM.Timestamp m) xs = drop k xs).
  { rewrite <- (take_drop k xs) at 1. rewrite filter_app_bool.
    rewrite filter_all_false, filter_all_true; [done| |].
    - intros j m Hm. rewrite lookup_drop in Hm.
      destruct (xs !! k) as [mk|] eqn:Ek.
      + apply Z.ltb_lt. specialize (Hnew mk eq_refl).
        specialize (Hord k (k + j)%nat mk m ltac:(lia) Ek Hm). lia.
      + apply lookup_lt_Some in Hm. apply lookup_ge_None_1 in Ek. lia.
    - intros j m Hm. apply Z.ltb_ge.
      pose proof (lookup_lt_Some _ _ _ Hm) as Hj. rewrite length_take in Hj.
      rewrite lookup_take in Hm. destruct (decide (j < k)%nat); [|lia]. exact (Hold j m ltac:(lia) Hm). }
  exists cb'. rewrite Hf. split; [|done].
  rewrite Hr. do 2 f_equal. rewrite length_drop. lia.
Qed.

Definition two_msgs_buffer : CircularBuffer :=
  {| data := [{| CM.ID := "1"; CM.StreamKey := "s"; CM.UserID := "a";
                 CM.Username := "A"; CM.Message := "x"; CM.Timestamp := 10 |};
              {| CM.ID := "2"; CM.StreamKey := "s"; CM.UserID := "a";
                 CM.Username := "A"; CM.Message := "y"; CM.Timestamp := 50 |}];
     maxSize := 2; head := 0; tail := 0; size := 2 |}.

Lemma RemoveOlderThan_ordered_witness :
  buffer_wf two_msgs_buffer /\ GetAll two_msgs_buffer = Some (data two_msgs_buffer) /\
  ordered_by_time (data two_msgs_buffer) /\
  exists cb', RemoveOlderThan 60 20 two_msgs_buffer =
      Some (Nat.sub (length (data two_msgs_buffer))
              (length (List.filter (fun m => older_cutoff 60 20 <? CM.Timestamp m)
                         (data two_msgs_buffer))), cb') /\
    buffer_wf cb' /\
    GetAll cb' = Some (List.filter (fun m => older_cutoff 60 20 <? CM.Timestamp m)
                         (data two_msgs_buffer)).
Proof.
  assert (Hwf : buffer_wf two_msgs_buffer) by (unfold buffer_wf; cbn; lia).
  assert (Hg : GetAll two_msgs_buffer = Some (data two_msgs_buffer)) by reflexivity.
  assert (Ho : ordered_by_time (data two_msgs_buffer)).
  { intros [|[|i]] [|[|j]] mi mj Hij Hi Hj; cbn in Hi, Hj;
      try discriminate; try lia;
      injection Hi as <-; injection Hj as <-; cbn; lia. }
  split; [exact Hwf|]. split; [exact Hg|]. split; [exact Ho|].
  exact (RemoveOlderThan_ordered 60 20 two_msgs_buffer _ Hwf Hg Ho).
Defined.

(** ** [GetRecent] for a non-negative count *)

Lemma GetRecent_drop n cb xs :
  buffer_wf cb -> GetAll cb = Some xs -> 0 <= n ->
  GetRecent n cb = Some (drop (length xs - Z.to_nat n) xs).
Proof.
  intros Hwf Hg Hn. pose proof Hwf as (HC & Hlen & Hh & Hs & Ht).
  destruct (GetAll_wf_eq cb xs Hwf Hg) as [Hl Hx].
  unfold GetRecent.
  destruct (Nat.eqb_spec (size cb) 0) as [H0|H0].
  { destruct xs; [done|cbn in Hl; lia]. }
  set (c := if Z.of_nat (size cb) <? n then Z.of_nat (size cb) else n).
  assert (Hc : c = Z.of_nat (Nat.min (size cb) (Z.to_nat n))).
  { subst c. destruct (Z.ltb_spec (Z.of_nat (size cb)) n); lia. }
  rewrite Hc. destruct (Z.ltb_spec (Z.of_nat (Nat.min (size cb) (Z.to_nat n))) 0); [lia|].
  rewrite Nat2Z.id.
  set (cnt := Nat.min (size cb) (Z.to_nat n)).
  destruct (mapM_seq_lookup
              (fun i => idx ← go_mod (head cb + (size cb - cnt) + i) (maxSize cb);
                        data cb !! idx) 0 cnt) as (ys & Hm & Hly & Hy).
  { intros i Hi. unfold go_mod. destruct (Nat.eqb_spec (maxSize cb) 0); [lia|].
    cbn. apply lookup_lt_is_Some_2. rewrite Hlen. apply Nat.mod_upper_bound. lia. }
  rewrite Hm. f_equal. apply list_eq. intros i.
  destruct (decide (i < cnt)%nat) as [Hi|Hi].
  - rewrite Hy by lia. rewrite lookup_drop. unfold go_mod.
    destruct (Nat.eqb_spec (maxSize cb) 0); [lia|]. cbn.
    rewrite Hx by lia. f_equal. f_equal. lia.
  - rewrite !lookup_ge_None_2; [done| |]; rewrite ?length_drop; lia.
Qed.

(** On a well-formed buffer, [GetRecent n] for any [n >= 0] never fails and
    returns the last [min n size] messages of [GetAll], oldest first. *)
Theorem GetRecent_last n cb xs :
  buffer_wf cb -> GetAll cb = Some xs -> 0 <= n ->
  GetRecent n cb = Some (drop (length xs - Z.to_nat n) xs).
Proof. apply GetRecent_drop. Qed.

Lemma GetRecent_last_witness :
  buffer_wf two_msgs_buffer /\ GetAll two_msgs_buffer = Some (data two_msgs_buffer) /\
  0 <= 1 /\
  GetRecent 1 two_msgs_buffer =
    Some (drop (length (data two_msgs_buffer) - Z.to_nat 1) (data two_msgs_buffer)).
Proof.
  assert (Hwf : buffer_wf two_msgs_buffer) by (unfold buffer_wf; cbn; lia).
  assert (Hg : GetAll two_msgs_buffer = Some (data two_msgs_buffer)) by reflexivity.
  split; [exact Hwf|]. split; [exact Hg|]. split; [lia|].
  exact (GetRecent_last 1 two_msgs_buffer _ Hwf Hg ltac:(lia)).
Defined.

Definition two_msgs_room : Room.ChatRoom :=
  {| Room.StreamKey := "s"; Room.Messages := two_msgs_buffer;
     Room.LastActivity := 50; Room.MessageCount := 2; Room.BytesUsed := 212 |}.

(** ** [ChatRoom.GetMessages] *)

(** On a room with a well-formed buffer, [GetMessages recentN] never fails,
    for any [recentN]: a positive [recentN] gives the last [recentN]
    messages (all of them if fewer), and [recentN <= 0], negative
    included, gives all messages. *)
Theorem GetMessages_total recentN cr xs :
  buffer_wf (Room.Messages cr) -> GetAll (Room.Messages cr) = Some xs ->
  GetMessages recentN cr =
    Some (if 0 <? recentN then drop (length xs - Z.to_nat recentN) xs else xs).
Proof.
  intros Hwf Hg. unfold GetMessages.
  destruct (Z.ltb_spec 0 recentN).
  - apply GetRecent_drop; [done|done|lia].
  - done.
Qed.

Lemma GetMessages_total_witness :
  buffer_wf (Room.Messages two_msgs_room) /\
  GetAll (Room.Messages two_msgs_room) = Some (data two_msgs_buffer) /\
  GetMessages (-3) two_msgs_room =
    Some (if 0 <? -3 then drop (length (data two_msgs_buffer) - Z.to_nat (-3))
                             (data two_msgs_buffer)
          else data two_msgs_buffer).
Proof.
  assert (Hwf : buffer_wf (Room.Messages two_msgs_room)) by (unfold buffer_wf; cbn; lia).
  assert (Hg : GetAll (Room.Messages two_msgs_room) = Some (data two_msgs_buffer))
    by reflexivity.
  split; [exact Hwf|]. split; [exact Hg|].
  exact (GetMessages_total (-3) two_msgs_room _ Hwf Hg).
Defined.

(** ** [ChatRoom.CleanupOldMessages] *)

(** On a room with a well-formed buffer, [CleanupOldMessages] never fails:
    it removes the leading run of messages not newer than the cutoff
    [older_cutoff now retention] (that is [now - retention], the negation
    wrapping in 64 bits), stopping at the first newer message, lowers bytes-used by 500 per removed message,
    clamped at 0 (unchanged when none is removed), so a non-negative
    bytes-used stays non-negative, and leaves the rest of the room as it
    was. *)
Theorem CleanupOldMessages_spec now retention cr xs :
  buffer_wf (Room.Messages cr) -> GetAll (Room.Messages cr) = Some xs ->
  0 <= Room.BytesUsed cr ->
  exists k cr', CleanupOldMessages now retention cr = Some (k, cr') /\
    buffer_wf (Room.Messages cr') /\
    GetAll (Room.Messages cr') = Some (drop k xs) /\
    (forall i m, (i < k)%nat -> xs !! i = Some m -> CM.Timestamp m <= older_cutoff now retention) /\
    (forall m, xs !! k = Some m -> older_cutoff now retention < CM.Timestamp m) /\
    Room.BytesUsed cr' = (if (k =? 0)%nat then Room.BytesUsed cr
                          else Z.max 0 (Room.BytesUsed cr - 500 * Z.of_nat k)) /\
    0 <= Room.BytesUsed cr' /\
    Room.StreamKey cr' = Room.StreamKey cr /\
    Room.LastActivity cr' = Room.LastActivity cr /\
    Room.MessageCount cr' = Room.MessageCount cr.
Proof.
  intros Hwf Hg Hb.
  destruct (remove_older_prefix now retention _ xs Hwf Hg)
    as (k & cb' & Hr & Hwf' & _ & Hg' & _ & Hold & Hnew).
  unfold CleanupOldMessages. rewrite Hr. cbn [mbind option_bind].
  eexists k, _. split; [reflexivity|]. cbn [Room.Messages Room.BytesUsed
    Room.StreamKey Room.LastActivity Room.MessageCount].
  split; [done|]. split; [done|]. split; [done|]. split; [done|].
  destruct (Nat.ltb_spec 0 k); destruct (Nat.eqb_spec k 0); try lia.
  - destruct (Z.ltb_spec (Room.BytesUsed cr - Z.of_nat k * 500) 0).
    + rewrite Z.max_l by lia. repeat split; lia.
    + rewrite Z.max_r by lia. repeat split; lia.
  - repeat split; lia.
Qed.

Lemma CleanupOldMessages_spec_witness :
  buffer_wf (Room.Messages two_msgs_room) /\
  GetAll (Room.Messages two_msgs_room) = Some (data two_msgs_buffer) /\
  0 <= Room.BytesUsed two_msgs_room /\
  exists k cr', CleanupOldMessages 60 20 two_msgs_room = Some (k, cr') /\
    buffer_wf (Room.Messages cr') /\
    GetAll (Room.Messages cr') = Some (drop k (data two_msgs_buffer)) /\
    (forall i m, (i < k)%nat -> data two_msgs_buffer !! i = Some m ->
       CM.Timestamp m <= older_cutoff 60 20) /\
    (forall m, data two_msgs_buffer !! k = Some m -> older_cutoff 60 20 < CM.Timestamp m) /\
    Room.BytesUsed cr' = (if (k =? 0)%nat then Room.BytesUsed two_msgs_room
                          else Z.max 0 (Room.BytesUsed two_msgs_room - 500 * Z.of_nat k)) /\
    0 <= Room.BytesUsed cr' /\
    Room.StreamKey cr' = Room.StreamKey two_msgs_room /\
    Room.LastActivity cr' = Room.LastActivity two_msgs_room /\
    Room.MessageCount cr' = Room.MessageCount two_msgs_room.
Proof.
  assert (Hwf : buffer_wf (Room.Messages two_msgs_room)) by (unfold buffer_wf; cbn; lia).
  assert (Hg : GetAll (Room.Messages two_msgs_room) = Some (data two_msgs_buffer))
    by reflexivity.
  assert (Hb : 0 <= Room.BytesUsed two_msgs_room) by (cbn; lia).
  split; [exact Hwf|]. split; [exact Hg|]. split; [exact Hb|].
  exact (CleanupOldMessages_spec 60 20 two_msgs_room _ Hwf Hg Hb).
Defined.

(** ** Rate limiter: history alignment and self-cleanup *)

(** The three parallel histories of a record, entry by entry. *)
Definition entries (r : UserRateRecord) : list (Z * string * Z) :=
  combine (combine (Messages r) (MessageContents r)) (CharCountHistory r).

(** The three histories have one entry per recorded message. *)
Definition aligned (r : UserRateRecord) : Prop :=
  length (MessageContents r) = length (Messages r) /\
  length (CharCountHistory r) = length (Messages r).

Definition split3 (es : list (Z * string * Z)) : list Z * list string * list Z :=
  (map (fun e => e.1.1) es, map (fun e => e.1.2) es, map (fun e => e.2) es).

Lemma cleanup_loop_filter cutoff ts cs hs i :
  (i + length ts <= length cs)%nat -> (i + length ts <= length hs)%nat ->
  cleanup_loop cutoff i ts cs hs =
    split3 (List.filter (fun e => cutoff <? e.1.1)
              (combine (combine ts (drop i cs)) (drop i hs))).
Proof.
  revert i. induction ts as [|t ts IH]; intros i Hc Hh; [done|].
  cbn [length] in Hc, Hh.
  destruct (lookup_lt_is_Some_2 cs i ltac:(lia)) as [c Ec].
  destruct (lookup_lt_is_Some_2 hs i ltac:(lia)) as [h Eh].
  rewrite (drop_S cs c i Ec), (drop_S hs h i Eh).
  cbn [cleanup_loop combine List.filter]. rewrite IH by lia.
  rewrite Ec, Eh. cbn [fst snd].
  destruct (cutoff <? t); done.
Qed.

Lemma combine_split3 es :
  let '(ts, cs, hs) := split3 es in combine (combine ts cs) hs = es.
Proof.
  induction es as [|[[t c] h] es IH]; [done|]. cbn in *. by rewrite IH.
Qed.

Lemma split3_aligned es :
  let '(ts, cs, hs) := split3 es in length cs = length ts /\ length hs = length ts.
Proof. cbn. by rewrite !length_map. Qed.

Lemma cleanup_run now r :
  aligned r -> Minute <= now - LastCleanup r ->
  cleanup now r =
    let '(ts, cs, hs) :=
      split3 (List.filter (fun e => now + -5 * Minute <? e.1.1) (entries r)) in
    {| UserID := UserID r; Messages := ts; MessageContents := cs;
       CharCountHistory := hs; TimeoutUntil := TimeoutUntil r;
       Violations := Violations r; LastCleanup := now |}.
Proof.
  intros [Hc Hh] Hm. unfold cleanup.
  destruct (Z.ltb_spec (now - LastCleanup r) Minute); [lia|].
  rewrite cleanup_loop_filter by lia. rewrite !drop_0. done.
Qed.

Lemma cleanup_aligned now r : aligned r -> aligned (cleanup now r).
Proof.
  intros Ha. destruct (Z.ltb_spec (now - LastCleanup r) Minute).
  - by rewrite cleanup_recent.
  - rewrite cleanup_run by done.
    pose proof (split3_aligned (List.filter (fun e => now + -5 * Minute <? e.1.1) (entries r))).
    destruct (split3 _) as [[ts cs] hs]. done.
Qed.

Lemma tier_apply_aligned now text t h : aligned h -> aligned (tier_apply now text t h).
Proof.
  intros [Hc Hh]. unfold aligned.
  destruct t; cbn; rewrite ?length_app; cbn; try lia;
    destruct (Z.eqb _ _); cbn; lia.
Qed.

Lemma checkRecord_aligned config now text r :
  aligned r -> aligned (snd (checkRecord config now text r)).
Proof.
  intros Ha. destruct (checkRecord_table config now text r) as [_ ->].
  pose proof (cleanup_aligned now r Ha).
  destruct (tier_allowed _); [by apply tier_apply_aligned|].
  destruct (first_match _); try done; by apply tier_apply_aligned.
Qed.

(** ** the self-cleanup of a record *)

(** Once a minute has passed since a record's last cleanup, [cleanup]
    keeps exactly the (timestamp, content, character count) entries whose
    timestamp is strictly after [now - 5 minutes], in their order, keeps the
    three histories aligned, stamps the cleanup time and leaves the timeout
    and the violations alone. *)
Theorem cleanup_keeps_recent_entries now r :
  aligned r -> Minute <= now - LastCleanup r ->
  entries (cleanup now r) =
    List.filter (fun e => now + -5 * Minute <? e.1.1) (entries r) /\
  aligned (cleanup now r) /\ LastCleanup (cleanup now r) = now /\
  TimeoutUntil (cleanup now r) = TimeoutUntil r /\
  Violations (cleanup now r) = Violations r.
Proof.
  intros Ha Hm. split; [|split; [by apply cleanup_aligned|]].
  - rewrite cleanup_run by done. unfold entries at 1.
    pose proof (combine_split3 (List.filter (fun e => now + -5 * Minute <? e.1.1) (entries r))).
    destruct (split3 _) as [[ts cs] hs]. done.
  - rewrite cleanup_run by done. destruct (split3 _) as [[ts cs] hs]. done.
Qed.

Definition stale_record : UserRateRecord :=
  {| UserID := "u"; Messages := [0; 100 * Second; 400 * Second];
     MessageContents := ["a"; "b"; "c"]; CharCountHistory := [1; 1; 1];
     TimeoutUntil := 0; Violations := 1; LastCleanup := 0 |}.

Lemma cleanup_keeps_recent_entries_witness :
  aligned stale_record /\ Minute <= 420 * Second - LastCleanup stale_record /\
  entries (cleanup (420 * Second) stale_record) =
    List.filter (fun e => 420 * Second + -5 * Minute <? e.1.1) (entries stale_record) /\
  aligned (cleanup (420 * Second) stale_record) /\
  LastCleanup (cleanup (420 * Second) stale_record) = 420 * Second /\
  TimeoutUntil (cleanup (420 * Second) stale_record) = TimeoutUntil stale_record /\
  Violations (cleanup (420 * Second) stale_record) = Violations stale_record.
Proof.
  assert (Ha : aligned stale_record) by (split; reflexivity).
  assert (Hm : Minute <= 420 * Second - LastCleanup stale_record)
    by (unfold Minute, Second, Nanosecond; cbn; lia).
  split; [exact Ha|]. split; [exact Hm|].
  exact (cleanup_keeps_recent_entries (420 * Second) stale_record Ha Hm).
Defined.

(** ** the histories stay aligned *)

(** If every stored record has its three histories aligned (one content
    and one character count per timestamp), they stay aligned through any
    sequence of checks and reaper runs; the index guards of
    [countCharsInWindow] and [cleanup] never skip an entry. *)
Theorem histories_stay_aligned config rl ops :
  (forall u r, rl !! u = Some r -> aligned r) ->
  forall u r, snd (run_limiter config rl ops) !! u = Some r -> aligned r.
Proof.
  revert rl. induction ops as [|op ops IH]; intros rl Hall; [done|].
  destruct op as [userID message now|now]; cbn [run_limiter].
  - rewrite CheckMessage_unfold.
    destruct (run_limiter config _ ops) as [outs rl''] eqn:E.
    intros u r Hr. cbn [snd].
    assert (Hrl'' : rl'' = snd (run_limiter config
               (<[userID := snd (checkRecord config now message
                                   (getOrCreateRecord rl userID now))]> rl) ops))
      by (rewrite E; done).
    rewrite Hrl'' in Hr. revert u r Hr. apply IH.
    intros u r Hr. destruct (decide (u = userID)) as [->|Hne].
    + rewrite lookup_insert_eq in Hr. injection Hr as <-.
      apply checkRecord_aligned. unfold getOrCreateRecord.
      destruct (rl !! userID) eqn:El; [by apply (Hall userID)|].
      split; done.
    + rewrite lookup_insert_ne in Hr by congruence. by apply (Hall u).
  - destruct (run_limiter config _ ops) as [outs rl''] eqn:E.
    intros u r Hr. cbn [snd] in Hr.
    assert (Hrl'' : rl'' = snd (run_limiter config (performCleanup now rl) ops))
      by (rewrite E; done).
    rewrite Hrl'' in Hr. revert u r Hr. apply IH.
    intros u r Hr. rewrite performCleanup_lookup in Hr.
    destruct (rl !! u) eqn:El; [|done].
    destruct (inactive now u0); [done|]. injection Hr as <-. by apply (Hall u).
Qed.

Lemma histories_stay_aligned_witness :
  (forall u r, (∅ : gmap string UserRateRecord) !! u = Some r -> aligned r) /\
  (forall u r, snd (run_limiter DefaultConfig ∅ (three_bursts "u")) !! u = Some r ->
     aligned r).
Proof.
  assert (H0 : forall u r, (∅ : gmap string UserRateRecord) !! u = Some r -> aligned r)
    by (intros u r Hr; rewrite lookup_empty in Hr; discriminate).
  split; [exact H0|].
  exact (histories_stay_aligned DefaultConfig ∅ (three_bursts "u") H0).
Defined.

(** ** Rate limiter: timeout status, similarity, the reaper *)

(** Five distinct short messages one second apart from 1000 s. *)
Definition after_five : gmap string UserRateRecord :=
  snd (run_limiter DefaultConfig ∅ (take 5 (burst "u" (1000 * Second)))).

(** [rl.GetTimeoutStatus(userID)] at wall time [now]: whether the user is
    timed out and the remaining duration. *)
Definition GetTimeoutStatus (rl : gmap string UserRateRecord) (userID : string)
    (now : Z) : bool * Z :=
  match rl !! userID with
  | None => (false, 0)
  | Some record =>
      if now <? TimeoutUntil record then (true, TimeoutUntil record - now)
      else (false, 0)
  end.

(** ** the timeout reported after a deny *)

(** When a check is denied by a tier that sets a timeout of duration [d]
    (every deny tier except TIMEOUT, MESSAGE_TOO_LONG and the two
    message-size tiers), [GetTimeoutStatus] for that user reports a
    timeout with [now + d - now'] remaining at every later instant [now']
    before [now + d], as long as no other check or reaper run intervenes. *)
Theorem timeout_status_after_deny config rl userID text now now' d :
  let h := cleanup now (getOrCreateRecord rl userID now) in
  tier_timeout (first_match (tier_trigger config now text h)) = Some d ->
  now <= now' < now + d ->
  GetTimeoutStatus (snd (CheckMessage config rl userID text now)) userID now' =
    (true, now + d - now').
Proof.
  intros h Ht Hn.
  destruct (checkRecord_table config now text (getOrCreateRecord rl userID now)) as [_ Hst].
  rewrite CheckMessage_unfold. cbn [snd]. rewrite Hst. fold h.
  unfold GetTimeoutStatus. rewrite lookup_insert_eq.
  set (t := first_match _) in *.
  assert (Hr : TimeoutUntil (if tier_allowed t then tier_apply now text t h
                             else match t with T0 => getOrCreateRecord rl userID now
                                  | _ => tier_apply now text t h end) = now + d).
  { destruct t; cbn in Ht |- *; try discriminate; injection Ht as <-; reflexivity. }
  rewrite Hr. destruct (Z.ltb_spec now' (now + d)); [done|lia].
Qed.

Lemma timeout_status_after_deny_witness :
  let h := cleanup (1005 * Second) (getOrCreateRecord after_five "u" (1005 * Second)) in
  tier_timeout (first_match (tier_trigger DefaultConfig (1005 * Second) "f" h)) =
    Some (30 * Second) /\
  1005 * Second <= 1010 * Second < 1005 * Second + 30 * Second /\
  GetTimeoutStatus (snd (CheckMessage DefaultConfig after_five "u" "f" (1005 * Second)))
    "u" (1010 * Second) = (true, 1005 * Second + 30 * Second - 1010 * Second).
Proof.
  intros h.
  assert (Ht : tier_timeout (first_match (tier_trigger DefaultConfig (1005 * Second) "f" h))
               = Some (30 * Second)) by (vm_compute; reflexivity).
  assert (Hn : 1005 * Second <= 1010 * Second < 1005 * Second + 30 * Second)
    by (unfold Second, Nanosecond; lia).
  split; [exact Ht|]. split; [exact Hn|].
  exact (timeout_status_after_deny DefaultConfig after_five "u" "f"
           (1005 * Second) (1010 * Second) (30 * Second) Ht Hn).
Defined.

Lemma prefix_matches_comm s t : prefix_matches s t = prefix_matches t s.
Proof.
  revert t. induction s as [|a s IH]; intros [|b t]; try done.
  cbn. rewrite IH. destruct (Ascii.eqb_spec a b), (Ascii.eqb_spec b a); congruence.
Qed.

Lemma prefix_matches_le s t : (prefix_matches s t <= String.length s)%nat.
Proof.
  revert t. induction s as [|a s IH]; intros [|b t]; cbn; try lia.
  specialize (IH t). destruct (Ascii.eqb a b); lia.
Qed.

Lemma prefix_matches_lt s t :
  String.length s = String.length t -> s <> t -> (prefix_matches s t < String.length s)%nat.
Proof.
  revert t. induction s as [|a s IH]; intros [|b t] Hl Hne; cbn in *; try lia.
  - done.
  - destruct (Ascii.eqb_spec a b) as [->|Hab].
    + assert (s <> t) by congruence. specialize (IH t ltac:(lia) H). lia.
    + pose proof (prefix_matches_le s t). lia.
Qed.

(** ** [similarity] *)

(** [similarity] is symmetric, its ratio [matches / len(longer)] never
    exceeds 1 (the denominator is positive), and it is 1 exactly when the
    two strings are equal. *)
Theorem similarity_props s1 s2 :
  similarity s1 s2 = similarity s2 s1 /\
  (0 < (similarity s1 s2).2)%nat /\
  ((similarity s1 s2).1 <= (similarity s1 s2).2)%nat /\
  ((similarity s1 s2).1 = (similarity s1 s2).2 <-> s1 = s2).
Proof.
  unfold similarity.
  destruct (String.eqb_spec s1 s2) as [->|Hne].
  { rewrite String.eqb_refl. cbn. repeat split; lia. }
  destruct (String.eqb_spec s2 s1) as [->|_]; [done|].
  destruct (Nat.eqb_spec (String.length s1) 0), (Nat.eqb_spec (String.length s2) 0);
    cbn [orb]; try (cbn; repeat split; [lia|lia|intros; lia|done]).
  destruct (Nat.ltb_spec (String.length s1) (String.length s2)),
           (Nat.ltb_spec (String.length s2) (String.length s1)); try lia; cbn [fst snd].
  - split; [done|]. pose proof (prefix_matches_le s1 s2).
    repeat split; [lia|lia|intros; lia|done].
  - split; [done|]. pose proof (prefix_matches_le s2 s1).
    repeat split; [lia|lia|intros; lia|done].
  - assert (Hl : String.length s1 = String.length s2) by lia.
    split; [rewrite prefix_matches_comm, Hl; done|].
    pose proof (prefix_matches_lt s2 s1 ltac:(lia) ltac:(congruence)).
    repeat split; [lia|lia|intros; lia|done].
Qed.

(** ** an over-long message costs nothing *)

(** A message longer than [MaxCharactersPerMessage] is always denied, with
    TIMEOUT (if the user is timed out) or MESSAGE_TOO_LONG; it is not
    recorded, adds no violation and sets no timeout: the stored record is
    the user's record as it was, or its self-cleaned version. *)
Theorem too_long_not_recorded config rl userID text now :
  MaxCharactersPerMessage config < Z.of_nat (String.length text) ->
  let r := getOrCreateRecord rl userID now in
  let res := CheckMessage config rl userID text now in
  fst (fst res) = false /\
  (option_map Code (snd (fst res)) = Some "TIMEOUT"%string \/
   option_map Code (snd (fst res)) = Some "MESSAGE_TOO_LONG"%string) /\
  (snd res !! userID = Some r \/ snd res !! userID = Some (cleanup now r)) /\
  (forall r', snd res !! userID = Some r' ->
     Violations r' = Violations r /\ TimeoutUntil r' = TimeoutUntil r /\
     Messages r' = Messages (if now <? TimeoutUntil r then r else cleanup now r)).
Proof.
  intros Hlong r res. subst res. rewrite CheckMessage_unfold. cbn [fst snd].
  rewrite lookup_insert_eq. fold r. unfold checkRecord.
  destruct (Z.ltb_spec now (TimeoutUntil r)).
  - cbn. split; [done|]. split; [by left|]. split; [by left|].
    intros r' [= <-]. done.
  - destruct (Z.ltb_spec (MaxCharactersPerMessage config)
                         (Z.of_nat (String.length text))); [|lia].
    cbn. split; [done|]. split; [by right|]. split; [by right|].
    intros r' [= <-]. rewrite cleanup_Violations, cleanup_TimeoutUntil. done.
Qed.

Lemma too_long_not_recorded_witness :
  MaxCharactersPerMessage DefaultConfig < Z.of_nat (String.length long_text) /\
  let r := getOrCreateRecord after_five "u" (1005 * Second) in
  let res := CheckMessage DefaultConfig after_five "u" long_text (1005 * Second) in
  fst (fst res) = false /\
  (option_map Code (snd (fst res)) = Some "TIMEOUT"%string \/
   option_map Code (snd (fst res)) = Some "MESSAGE_TOO_LONG"%string) /\
  (snd res !! "u"%string = Some r \/ snd res !! "u"%string = Some (cleanup (1005 * Second) r)) /\
  (forall r', snd res !! "u"%string = Some r' ->
     Violations r' = Violations r /\ TimeoutUntil r' = TimeoutUntil r /\
     Messages r' = Messages (if 1005 * Second <? TimeoutUntil r then r
                             else cleanup (1005 * Second) r)).
Proof.
  assert (Hl : MaxCharactersPerMessage DefaultConfig < Z.of_nat (String.length long_text))
    by (vm_compute; reflexivity).
  split; [exact Hl|].
  exact (too_long_not_recorded DefaultConfig after_five "u" long_text (1005 * Second) Hl).
Defined.

(** ** the reaper only deletes, once *)

(** A reaper run never alters a record, it only deletes some; running it
    again at the same instant deletes nothing more. *)
Theorem performCleanup_idempotent now rl :
  (forall u r, performCleanup now rl !! u = Some r -> rl !! u = Some r) /\
  performCleanup now (performCleanup now rl) = performCleanup now rl.
Proof.
  split.
  - intros u r. rewrite performCleanup_lookup.
    destruct (rl !! u) as [r0|]; [|done]. destruct (inactive now r0); done.
  - apply map_eq. intros u. rewrite !performCleanup_lookup.
    destruct (rl !! u) as [r0|]; [|done].
    destruct (inactive now r0) eqn:E; [done|]. by rewrite E.
Qed.

(** ** The manager: rosters, joins and the room reaper *)

Module CU.
(** [ChatUser]; the fields [AddUser] leaves at their zero value are kept. *)
Record ChatUser := {
  UserID : string;
  Username : string;
  ConnectedAt : Z;
  LastMessage : Z;
  MessageCount : Z;
  CharCount : Z;
  TimeoutUntil : Z;
  Violations : Z;
  IsActive : bool
}.
End CU.

(** [Manager.rooms]: each room's [Users] map is kept beside the room, in
    [mrosters] under the same stream key; an absent roster is an empty
    [Users] map. *)
Record Mgr := {
  mrooms : gmap string Room.ChatRoom;
  mrosters : gmap string (gmap string CU.ChatUser)
}.

Definition roster (sk : string) (m : Mgr) : gmap string CU.ChatUser :=
  default ∅ (mrosters m !! sk).

(** [room.UserCount()] *)
Definition UserCount (sk : string) (m : Mgr) : nat := stdpp.base.size (roster sk m).

Definition ErrRoomFull : ChatError :=
  {| Code := "ROOM_FULL"; Message := "Chat room is full" |}.

(** [m.GetOrCreateRoom(streamKey)], with the room stored. *)
Definition Mgr_GetOrCreateRoom (config : ChatConfig) (now : Z) (sk : string) (m : Mgr)
    : option (Room.ChatRoom * Mgr) :=
  match mrooms m !! sk with
  | Some room => Some (room, m)
  | None =>
      room ← NewChatRoom now sk (MaxMessagesPerStream config);
      Some (room, {| mrooms := <[sk := room]> (mrooms m);
                     mrosters := delete sk (mrosters m) |})
  end.

(** [m.AddUser(streamKey, userID, username)]: the room's [AddUser] puts
    the user in the roster and refreshes [LastActivity]. *)
Definition Mgr_AddUser (config : ChatConfig) (now : Z) (sk userID username : string)
    (m : Mgr) : option (option ChatError * Mgr) :=
  '(room, m1) ← Mgr_GetOrCreateRoom config now sk m;
  if MaxUsersPerStream config <=? Z.of_nat (UserCount sk m1) then
    Some (Some ErrRoomFull, m1)
  else
    let user := {| CU.UserID := userID; CU.Username := username;
                   CU.ConnectedAt := now; CU.LastMessage := 0; CU.MessageCount := 0;
                   CU.CharCount := 0; CU.TimeoutUntil := 0; CU.Violations := 0;
                   CU.IsActive := true |} in
    let room' := {| Room.StreamKey := Room.StreamKey room; Room.Messages := Room.Messages room;
                    Room.LastActivity := now; Room.MessageCount := Room.MessageCount room;
                    Room.BytesUsed := Room.BytesUsed room |} in
    Some (None, {| mrooms := <[sk := room']> (mrooms m1);
                   mrosters := <[sk := <[userID := user]> (roster sk m1)]> (mrosters m1) |}).

(** [m.RemoveUser(streamKey, userID)] *)
Definition Mgr_RemoveUser (sk userID : string) (m : Mgr) : Mgr :=
  match mrooms m !! sk with
  | None => m
  | Some _ => {| mrooms := mrooms m;
                 mrosters := <[sk := delete userID (roster sk m)]> (mrosters m) |}
  end.

(** [m.GetMessages(streamKey, recentN)] *)
Definition Mgr_GetMessages (sk : string) (recentN : Z) (m : Mgr)
    : option (list CM.ChatMessage) :=
  match mrooms m !! sk with
  | None => Some []
  | Some room => GetMessages recentN room
  end.

(** [m.GetUsers(streamKey)] (Go's map order is unspecified). *)
Definition Mgr_GetUsers (sk : string) (m : Mgr) : list CU.ChatUser :=
  match mrooms m !! sk with
  | None => []
  | Some _ => (map_to_list (roster sk m)).*2
  end.

(** The test of [performCleanup] marking a room for deletion. *)
Definition room_inactive (config : ChatConfig) (now : Z) (users : nat)
    (room : Room.ChatRoom) : bool :=
  (users =? 0)%nat && (InactiveStreamTimeout config <? now - Room.LastActivity room).

(** The loop of [m.performCleanup()]: clean every room, collect the rooms
    to delete; a failing cleanup is a panic. The retention
    [time.Duration(MessageRetentionMinutes) * time.Minute] wraps in 64 bits. *)
Definition mgr_cleanup_loop (config : ChatConfig) (now : Z) (m : Mgr)
    : option (gmap string Room.ChatRoom * list string) :=
  let retention := wrap64 (MessageRetentionMinutes config * Minute) in
  map_fold (fun sk room acc =>
              '(rooms, roomsToDelete) ← acc;
              '(_, room') ← CleanupOldMessages now retention room;
              Some (<[sk := room']> rooms,
                    if room_inactive config now (UserCount sk m) room
                    then sk :: roomsToDelete else roomsToDelete))
           (Some (mrooms m, [])) (mrooms m).

(** [m.performCleanup()] at wall time [now]. *)
Definition Mgr_performCleanup (config : ChatConfig) (now : Z) (m : Mgr) : option Mgr :=
  '(rooms, roomsToDelete) ← mgr_cleanup_loop config now m;
  Some {| mrooms := foldr delete rooms roomsToDelete;
          mrosters := foldr delete (mrosters m) roomsToDelete |}.

(** Every roster belongs to a stored room (a room's users go with it). *)
Definition rosters_in_rooms (m : Mgr) : Prop :=
  forall sk, mrooms m !! sk = None -> mrosters m !! sk = None.

Lemma Mgr_GetOrCreateRoom_spec config now sk m room m1 :
  rosters_in_rooms m -> Mgr_GetOrCreateRoom config now sk m = Some (room, m1) ->
  mrooms m1 !! sk = Some room /\ UserCount sk m1 = UserCount sk m /\
  rosters_in_rooms m1 /\
  (forall sk', sk' <> sk -> mrooms m1 !! sk' = mrooms m !! sk' /\
                           mrosters m1 !! sk' = mrosters m !! sk').
Proof.
  intros Hinv. unfold Mgr_GetOrCreateRoom.
  destruct (mrooms m !! sk) as [r|] eqn:Er.
  - intros [= <- <-]. done.
  - destruct (NewChatRoom now sk _) as [r|]; [|done]. cbn [mbind option_bind]. intros [= <- <-].
    cbn [mrooms mrosters].
    split; [by rewrite lookup_insert_eq|].
    split; [unfold UserCount, roster; cbn [mrooms mrosters]; rewrite lookup_delete_eq, (Hinv sk Er); done|].
    split.
    + intros sk' Hn. cbn [mrooms mrosters] in Hn |- *. destruct (decide (sk' = sk)) as [->|Hne].
      * by rewrite lookup_delete_eq.
      * rewrite lookup_insert_ne in Hn by congruence.
        rewrite lookup_delete_ne by congruence. by apply Hinv.
    + intros sk' Hne. cbn [mrooms mrosters]. rewrite lookup_insert_ne, lookup_delete_ne by congruence. done.
Qed.

(** ** [Manager.AddUser] and the room capacity *)

(** [Manager.AddUser] is refused with ROOM_FULL exactly when the room
    already holds [MaxUsersPerStream] users or more (a user already in a
    full room is refused too); otherwise the user is in the roster
    afterwards. A room within its capacity stays within it, the rosters
    stay attached to stored rooms, and other rooms are untouched. *)
Theorem AddUser_capacity config now sk userID username m res m' :
  rosters_in_rooms m ->
  Mgr_AddUser config now sk userID username m = Some (res, m') ->
  (res = Some ErrRoomFull <-> MaxUsersPerStream config <= Z.of_nat (UserCount sk m)) /\
  (res = None \/ res = Some ErrRoomFull) /\
  (Z.of_nat (UserCount sk m) <= MaxUsersPerStream config ->
     Z.of_nat (UserCount sk m') <= MaxUsersPerStream config) /\
  (res = None -> exists u, roster sk m' !! userID = Some u /\ CU.Username u = username) /\
  rosters_in_rooms m' /\
  (forall sk', sk' <> sk -> mrooms m' !! sk' = mrooms m !! sk' /\
                           roster sk' m' = roster sk' m).
Proof.
  intros Hinv. unfold Mgr_AddUser.
  destruct (Mgr_GetOrCreateRoom config now sk m) as [[room m1]|] eqn:Eg; [|done].
  destruct (Mgr_GetOrCreateRoom_spec config now sk m room m1 Hinv Eg)
    as (Hr1 & Hc1 & Hinv1 & Hoth).
  cbn [mbind option_bind]. rewrite Hc1.
  destruct (Z.leb_spec (MaxUsersPerStream config) (Z.of_nat (UserCount sk m))) as [Hf|Hf].
  - intros [= <- <-]. split; [done|]. split; [by right|]. split; [rewrite Hc1; done|].
    split; [done|]. split; [done|].
    intros sk' Hne. destruct (Hoth sk' Hne) as [Ha Hb]. unfold roster. by rewrite Hb.
  - intros [= <- <-]. split; [split; [done|lia]|]. split; [by left|].
    split.
    { intros _. unfold UserCount, roster at 1. cbn [mrooms mrosters]. rewrite lookup_insert_eq. cbn [default from_option id].
      rewrite map_size_insert. unfold UserCount in Hf, Hc1.
      destruct (roster sk m1 !! userID); cbn [id]; lia. }
    split.
    { intros _. unfold roster at 1. cbn [mrooms mrosters]. rewrite lookup_insert_eq. cbn [default from_option id].
      rewrite lookup_insert_eq. by eexists. }
    split.
    { intros sk' Hn. cbn [mrooms mrosters] in Hn |- *. destruct (decide (sk' = sk)) as [->|Hne].
      - by rewrite lookup_insert_eq in Hn.
      - rewrite lookup_insert_ne in Hn by congruence.
        rewrite lookup_insert_ne by congruence. by apply Hinv1. }
    intros sk' Hne. destruct (Hoth sk' Hne) as [Ha Hb].
    unfold roster. cbn [mrooms mrosters]. rewrite !lookup_insert_ne by congruence. by rewrite Ha, Hb.
Qed.

Definition empty_mgr : Mgr := {| mrooms := ∅; mrosters := ∅ |}.

Lemma AddUser_capacity_witness :
  rosters_in_rooms empty_mgr /\
  exists res m', Mgr_AddUser DefaultConfig 7 "s" "a" "Ann" empty_mgr = Some (res, m') /\
  ((res = Some ErrRoomFull <->
      MaxUsersPerStream DefaultConfig <= Z.of_nat (UserCount "s" empty_mgr)) /\
   (res = None \/ res = Some ErrRoomFull) /\
   (Z.of_nat (UserCount "s" empty_mgr) <= MaxUsersPerStream DefaultConfig ->
      Z.of_nat (UserCount "s" m') <= MaxUsersPerStream DefaultConfig) /\
   (res = None -> exists u, roster "s" m' !! "a"%string = Some u /\
                            CU.Username u = "Ann"%string) /\
   rosters_in_rooms m' /\
   (forall sk', sk' <> "s"%string -> mrooms m' !! sk' = mrooms empty_mgr !! sk' /\
                                    roster sk' m' = roster sk' empty_mgr)).
Proof.
  assert (Hinv : rosters_in_rooms empty_mgr) by (intros sk _; reflexivity).
  split; [exact Hinv|].
  destruct (Mgr_AddUser DefaultConfig 7 "s" "a" "Ann" empty_mgr) as [[res m']|] eqn:E.
  - exists res, m'. split; [reflexivity|].
    exact (AddUser_capacity DefaultConfig 7 "s" "a" "Ann" empty_mgr res m' Hinv E).
  - vm_compute in E. discriminate.
Defined.

(** ** The manager's reaper *)

Lemma lookup_foldr_delete {A} (m : gmap string A) (l : list string) k :
  foldr delete m l !! k = if decide (k ∈ l) then None else m !! k.
Proof.
  induction l as [|x l IH]; cbn [foldr].
  - destruct (decide (k ∈ [])) as [Hin|]; [inversion Hin|done].
  - destruct (decide (k = x)) as [->|Hne].
    + rewrite lookup_delete_eq. destruct (decide (x ∈ x :: l)); [done|].
      exfalso. apply n. constructor.
    + rewrite lookup_delete_ne by congruence. rewrite IH.
      destruct (decide (k ∈ l)), (decide (k ∈ x :: l)); try done.
      * exfalso. apply n. by constructor.
      * exfalso. apply elem_of_cons in e as [|]; done.
Qed.

(** The effect of the reaper loop on the rooms visited so far. *)
Definition loop_inv (config : ChatConfig) (now : Z) (m : Mgr)
    (acc : option (gmap string Room.ChatRoom * list string))
    (visited : gmap string Room.ChatRoom) : Prop :=
  (forall sk room, visited !! sk = Some room -> buffer_wf (Room.Messages room)) ->
  exists rooms del, acc = Some (rooms, del) /\
    forall sk,
      (visited !! sk = None -> rooms !! sk = mrooms m !! sk /\ sk ∉ del) /\
      (forall room, visited !! sk = Some room ->
         (exists k room', CleanupOldMessages now (wrap64 (MessageRetentionMinutes config * Minute)) room
                          = Some (k, room') /\ rooms !! sk = Some room') /\
         (sk ∈ del <-> room_inactive config now (UserCount sk m) room = true)).

Lemma mgr_cleanup_loop_spec config now m :
  loop_inv config now m (mgr_cleanup_loop config now m) (mrooms m).
Proof.
  unfold mgr_cleanup_loop. apply map_fold_weak_ind.
  - intros _. exists (mrooms m), []. split; [done|].
    intros sk. split; [split; [done|by intros Hx; inversion Hx]|].
    intros room Hr. by rewrite lookup_empty in Hr.
  - intros sk room vis acc Hnone IH Hwf.
    destruct IH as (rooms & del & -> & Hacc).
    { intros sk' r' Hr'. apply (Hwf sk'). rewrite lookup_insert_ne; [done|].
      intros ->. congruence. }
    assert (Hw : buffer_wf (Room.Messages room)) by (apply (Hwf sk); by rewrite lookup_insert_eq).
    destruct (GetAll_lookup _ Hw) as (xs & Hg & _).
    destruct (CleanupOldMessages now (wrap64 (MessageRetentionMinutes config * Minute)) room)
      as [[k room']|] eqn:Ec.
    2:{ exfalso. unfold CleanupOldMessages in Ec.
        destruct (remove_older_prefix now (wrap64 (MessageRetentionMinutes config * Minute))
                    _ xs Hw Hg) as (k & cb' & Hr & _).
        rewrite Hr in Ec. discriminate. }
    cbn [mbind option_bind].
    eexists _, _. split; [reflexivity|].
    intros sk'. destruct (decide (sk' = sk)) as [->|Hne].
    + rewrite lookup_insert_eq. split; [done|].
      intros r [= <-]. split.
      * exists k, room'. split; [done|]. by rewrite lookup_insert_eq.
      * destruct (room_inactive config now (UserCount sk m) room).
        -- split; [intros _; done|intros _; constructor].
        -- split; [|done]. intros Hin. exfalso.
           destruct (Hacc sk) as [[_ Hn] _]; [|by apply Hn].
           done.
    + rewrite !lookup_insert_ne by congruence.
      destruct (Hacc sk') as [Hn Hs]. split.
      * intros Hv. destruct (Hn Hv) as [Hr Hd]. split; [done|].
        destruct (room_inactive _ _ _ _); [|done].
        intros Hin. apply elem_of_cons in Hin as [|]; done.
      * intros r Hr. destruct (Hs r Hr) as [Hc Hd]. split; [done|].
        destruct (room_inactive config now (UserCount sk m) room).
        -- rewrite elem_of_cons, <- Hd. split; [intros [|]; done|intros; by right].
        -- done.
Qed.

(** [m.performCleanup()]: when every stored buffer is well formed, the
    reaper never panics; a room that is empty and idle past
    [InactiveStreamTimeout] is deleted with its users, every other room is
    kept with the messages not newer than the retention cutoff removed (the
    retention [Duration(MessageRetentionMinutes) * time.Minute] wraps in 64
    bits, as does its negation in [RemoveOlderThan]) and its users
    untouched, and no room is created. *)
Theorem Mgr_performCleanup_spec config now m :
  (forall sk room, mrooms m !! sk = Some room -> buffer_wf (Room.Messages room)) ->
  exists m', Mgr_performCleanup config now m = Some m' /\
  forall sk,
    (mrooms m !! sk = None ->
       mrooms m' !! sk = None /\ mrosters m' !! sk = mrosters m !! sk) /\
    (forall room, mrooms m !! sk = Some room ->
       if room_inactive config now (UserCount sk m) room
       then mrooms m' !! sk = None /\ mrosters m' !! sk = None
       else (exists k room',
               CleanupOldMessages now (wrap64 (MessageRetentionMinutes config * Minute)) room
                 = Some (k, room') /\ mrooms m' !! sk = Some room') /\
            mrosters m' !! sk = mrosters m !! sk).
Proof.
  intros Hwf.
  destruct (mgr_cleanup_loop_spec config now m Hwf) as (rooms & del & Hl & Hs).
  unfold Mgr_performCleanup. rewrite Hl. cbn [mbind option_bind].
  eexists. split; [reflexivity|]. intros sk. cbn [mrooms mrosters].
  rewrite !lookup_foldr_delete. split.
  - intros Hn. destruct (Hs sk) as [Hn' _]. destruct (Hn' Hn) as [Hr Hd].
    destruct (decide (sk ∈ del)); [contradiction|]. by rewrite Hr.
  - intros room Hr. destruct (Hs sk) as [_ Hk]. destruct (Hk room Hr) as [Hc Hd].
    destruct (room_inactive config now (UserCount sk m) room).
    + destruct (decide (sk ∈ del)) as [|Hn]; [done|]. exfalso. by apply Hn, Hd.
    + destruct (decide (sk ∈ del)) as [Hin|]; [|done].
      exfalso. apply Hd in Hin. discriminate.
Qed.

Definition one_room_mgr : Mgr :=
  {| mrooms := {["s" := two_msgs_room]}; mrosters := ∅ |}.

Lemma Mgr_performCleanup_spec_witness :
  (forall sk room, mrooms one_room_mgr !! sk = Some room ->
                   buffer_wf (Room.Messages room)) /\
  exists m', Mgr_performCleanup DefaultConfig (20 * Minute) one_room_mgr = Some m' /\
  forall sk,
    (mrooms one_room_mgr !! sk = None ->
       mrooms m' !! sk = None /\ mrosters m' !! sk = mrosters one_room_mgr !! sk) /\
    (forall room, mrooms one_room_mgr !! sk = Some room ->
       if room_inactive DefaultConfig (20 * Minute) (UserCount sk one_room_mgr) room
       then mrooms m' !! sk = None /\ mrosters m' !! sk = None
       else (exists k room',
               CleanupOldMessages (20 * Minute)
                 (wrap64 (MessageRetentionMinutes DefaultConfig * Minute)) room
                 = Some (k, room') /\ mrooms m' !! sk = Some room') /\
            mrosters m' !! sk = mrosters one_room_mgr !! sk).
Proof.
  assert (Hwf : forall sk room, mrooms one_room_mgr !! sk = Some room ->
                                buffer_wf (Room.Messages room)).
  { intros sk room H. cbn [mrooms one_room_mgr] in H.
    apply lookup_singleton_Some in H as [_ <-]. unfold buffer_wf; cbn; lia. }
  split; [exact Hwf|].
  exact (Mgr_performCleanup_spec DefaultConfig (20 * Minute) one_room_mgr Hwf).
Defined.

(** ** A chat message that passes the rate limiter *)

Lemma drop_last_one {A} (k : nat) (xs : list A) (m : A) :
  (k <= length xs)%nat ->
  drop (length (drop k (xs ++ [m])) - 1) (drop k (xs ++ [m])) = [m].
Proof.
  intros Hk. rewrite drop_app_le by done. rewrite length_app. cbn [length].
  replace (length (drop k xs) + 1 - 1)%nat with (length (drop k xs)) by lia.
  apply drop_app_length.
Qed.

(** [c.handleChatMessage(msg)] on a well-formed frame from a joined
    connection whose text the rate limiter allows: the limiter's record is
    stored, the message (stamped with the connection's user, name and
    stream) is appended to the room [GetOrCreateRoom] returns, when that
    room's buffer is well formed (capacity at least 1: with capacity 0 the
    append panics), and stored back, the room's counters and activity are updated, and the one effect
    is its broadcast to the stream; the room's most recent message is then
    this one. *)
Theorem handleChatMessage_accept config now id c msg data message st room xs :
  Conn.UserID c <> ""%string ->
  field "data" msg = Some (JObj data) ->
  field "message" data = Some (JStr message) ->
  message <> ""%string ->
  fst (fst (CheckMessage config (limiter st) (Conn.UserID c) message now)) = true ->
  GetOrCreateRoom config now (Conn.StreamKey c) (rooms st) = Some room ->
  buffer_wf (Room.Messages room) -> GetAll (Room.Messages room) = Some xs ->
  let chatMsg := {| CM.ID := id; CM.StreamKey := Conn.StreamKey c;
                    CM.UserID := Conn.UserID c; CM.Username := Conn.Username c;
                    CM.Message := message; CM.Timestamp := now |} in
  exists room',
    handleChatMessage config now id c msg st =
      Some ([Broadcast (Conn.StreamKey c)
               {| WS.Type_ := "message"; WS.Data := Some chatMsg; WS.Error := "" |}],
            {| limiter := snd (CheckMessage config (limiter st) (Conn.UserID c) message now);
               rooms := <[Conn.StreamKey c := room']> (rooms st) |}) /\
    GetAll (Room.Messages room') =
      Some (drop (length (xs ++ [chatMsg]) - maxSize (Room.Messages room))
                 (xs ++ [chatMsg])) /\
    GetMessages 1 room' = Some [chatMsg] /\
    Room.LastActivity room' = now /\
    Room.MessageCount room' = Room.MessageCount room + 1 /\
    Room.BytesUsed room' = Room.BytesUsed room + msgSize chatMsg.
Proof.
  intros Hu Hd Hm Hne Hal Hr Hwf Hg chatMsg.
  destruct (add_all_spec [chatMsg] _ xs Hwf Hg) as (cb' & Hadd & Hwf' & Hmax & Hg').
  cbn [add_all] in Hadd.
  destruct (Add chatMsg (Room.Messages room)) as [cb1|] eqn:Ea; [|discriminate].
  cbn [mbind option_bind] in Hadd. injection Hadd as <-.
  set (room' := {| Room.StreamKey := Room.StreamKey room; Room.Messages := cb1;
                   Room.LastActivity := now;
                   Room.MessageCount := Room.MessageCount room + 1;
                   Room.BytesUsed := Room.BytesUsed room + msgSize chatMsg |}).
  exists room'. split.
  - unfold handleChatMessage.
    destruct (String.eqb_spec (Conn.UserID c) ""); [done|].
    rewrite Hd, Hm. destruct (String.eqb_spec message ""); [done|].
    destruct (CheckMessage config (limiter st) (Conn.UserID c) message now)
      as [[allowed err] rl'].
    cbn [fst] in Hal. subst allowed. cbn [negb snd limiter rooms].
    unfold Manager_AddMessage. rewrite Hr. cbn [mbind option_bind].
    unfold AddMessage. fold chatMsg. rewrite Ea. reflexivity.
  - pose proof Hwf as (HC & _ & _ & Hs & _).
    destruct (GetAll_wf_eq _ _ Hwf Hg) as [Hl _].
    split; [exact Hg'|]. split; [|done].
    unfold GetMessages. cbn [Z.ltb Z.compare].
    cbn [Room.Messages room']. rewrite (GetRecent_drop 1 cb1 _ Hwf' Hg') by lia.
    f_equal. apply drop_last_one. rewrite length_app. cbn [length]. lia.
Qed.

Lemma handleChatMessage_accept_witness :
  let st := {| limiter := ∅; rooms := ∅ |} in
  exists room xs,
    Conn.UserID alice <> ""%string /\
    field "data" (chat_frame "hi") = Some (JObj [("message", JStr "hi")]) /\
    field "message" [("message", JStr "hi")] = Some (JStr "hi") /\
    "hi"%string <> ""%string /\
    fst (fst (CheckMessage DefaultConfig (limiter st) (Conn.UserID alice) "hi" 1000)) = true /\
    GetOrCreateRoom DefaultConfig 1000 (Conn.StreamKey alice) (rooms st) = Some room /\
    buffer_wf (Room.Messages room) /\ GetAll (Room.Messages room) = Some xs /\
    let chatMsg := {| CM.ID := "id"; CM.StreamKey := Conn.StreamKey alice;
                      CM.UserID := Conn.UserID alice; CM.Username := Conn.Username alice;
                      CM.Message := "hi"; CM.Timestamp := 1000 |} in
    exists room',
      handleChatMessage DefaultConfig 1000 "id" alice (chat_frame "hi") st =
        Some ([Broadcast (Conn.StreamKey alice)
                 {| WS.Type_ := "message"; WS.Data := Some chatMsg; WS.Error := "" |}],
              {| limiter := snd (CheckMessage DefaultConfig (limiter st) (Conn.UserID alice)
                                  "hi" 1000);
                 rooms := <[Conn.StreamKey alice := room']> (rooms st) |}) /\
      GetAll (Room.Messages room') =
        Some (drop (length (xs ++ [chatMsg]) - maxSize (Room.Messages room))
                   (xs ++ [chatMsg])) /\
      GetMessages 1 room' = Some [chatMsg] /\
      Room.LastActivity room' = 1000 /\
      Room.MessageCount room' = Room.MessageCount room + 1 /\
      Room.BytesUsed room' = Room.BytesUsed room + msgSize chatMsg.
Proof.
  intros st.
  destruct (GetOrCreateRoom DefaultConfig 1000 "s" ∅) as [room|] eqn:Er;
    [|vm_compute in Er; discriminate].
  assert (Hwf : buffer_wf (Room.Messages room)).
  { vm_compute in Er. injection Er as <-. unfold buffer_wf; cbn. lia. }
  assert (Hg : GetAll (Room.Messages room) = Some []).
  { vm_compute in Er. injection Er as <-. reflexivity. }
  exists room, [].
  assert (Hal : fst (fst (CheckMessage DefaultConfig (limiter st) (Conn.UserID alice) "hi" 1000))
                = true) by (vm_compute; reflexivity).
  do 8 (split; [first [done | exact Hal | exact Er | exact Hwf | exact Hg]|]).
  exact (handleChatMessage_accept DefaultConfig 1000 "id" alice (chat_frame "hi")
           [("message", JStr "hi")] "hi" st room [] ltac:(done) eq_refl eq_refl
           ltac:(done) Hal Er Hwf Hg).
Defined.

(** ** Configuration from the environment ([LoadFromEnv], integer fields) *)

Definition digit_val (a : ascii) : option Z :=
  let n := nat_of_ascii a in
  if (48 <=? n)%nat && (n <=? 57)%nat then Some (Z.of_nat n - 48) else None.

Fixpoint parse_digits (acc : Z) (l : list ascii) : option Z :=
  match l with
  | [] => Some acc
  | a :: l' => d ← digit_val a; parse_digits (acc * 10 + d) l'
  end.

(** [strconv.Atoi] on a 64-bit platform: an optional sign, then at least
    one decimal digit and nothing else, the value within [int64]; any
    other input is an error (its fast path for short strings and its
    [ParseInt(s, 10, 0)] path agree on this). *)
Definition Atoi (s : string) : option Z :=
  let l := list_ascii_of_string s in
  let '(neg, ds) := match l with
                    | "-"%char :: r => (true, r)
                    | "+"%char :: r => (false, r)
                    | _ => (false, l)
                    end in
  match ds with
  | [] => None
  | _ =>
      n ← parse_digits 0 ds;
      let v := if neg then - n else n in
      if (- 2 ^ 63 <=? v) && (v <? 2 ^ 63) then Some v else None
  end.

(** One [if val := os.Getenv(name); val != ""] block: an unset, empty or
    unparsable variable keeps the current value. *)
Definition env_int (env : string -> string) (name : string) (cur : Z) : Z :=
  let val := env name in
  if String.eqb val "" then cur
  else match Atoi val with Some parsed => parsed | None => cur end.

(** [LoadFromEnv()], [os.Getenv] being [env] (an unset variable reads as
    [""]); [InactiveStreamTimeout] has no variable. *)
Definition LoadFromEnv (env : string -> string) : ChatConfig :=
  let config := DefaultConfig in
  {| MaxTotalMemoryMB := env_int env "CHAT_MAX_MEMORY_MB" (MaxTotalMemoryMB config);
     MaxMessagesPerStream :=
       env_int env "CHAT_MAX_MESSAGES_PER_STREAM" (MaxMessagesPerStream config);
     MaxUsersPerStream := env_int env "CHAT_MAX_USERS_PER_STREAM" (MaxUsersPerStream config);
     MessageRetentionMinutes :=
       env_int env "CHAT_MESSAGE_RETENTION_MINUTES" (MessageRetentionMinutes config);
     CleanupIntervalMinutes :=
       env_int env "CHAT_CLEANUP_INTERVAL_MINUTES" (CleanupIntervalMinutes config);
     InactiveStreamTimeout := InactiveStreamTimeout config;
     MaxMessagesPerMinute :=
       env_int env "CHAT_MAX_MESSAGES_PER_MINUTE" (MaxMessagesPerMinute config);
     MaxCharactersPerMessage :=
       env_int env "CHAT_MAX_CHARACTERS_PER_MESSAGE" (MaxCharactersPerMessage config);
     SpamThresholdMessages :=
       env_int env "CHAT_SPAM_THRESHOLD_MESSAGES" (SpamThresholdMessages config);
     SpamTimeoutMinutes :=
       env_int env "CHAT_SPAM_TIMEOUT_MINUTES" (SpamTimeoutMinutes config) |}.

(** [LoadFromEnv] takes any integer for the per-stream capacity: when
    [CHAT_MAX_MESSAGES_PER_STREAM] parses to a value [v] below [2^40] (under
    the length limit of [make]), the first [Manager.AddMessage] on a stream
    without a room panics exactly when [v <= 0] ([make] with a negative
    length, or [% 0] in [Add]). *)
Theorem LoadFromEnv_capacity_panics env v now id sk userID username message rs :
  Atoi (env "CHAT_MAX_MESSAGES_PER_STREAM") = Some v ->
  v < 2 ^ 40 ->
  rs !! sk = None ->
  (Manager_AddMessage (LoadFromEnv env) now id sk userID username message rs = None
   <-> v <= 0).
Proof.
  intros Ha _ Hr.
  assert (Hm : MaxMessagesPerStream (LoadFromEnv env) = v).
  { cbn [LoadFromEnv MaxMessagesPerStream]. unfold env_int.
    destruct (String.eqb_spec (env "CHAT_MAX_MESSAGES_PER_STREAM") "") as [He|].
    - rewrite He in Ha. discriminate.
    - by rewrite Ha. }
  unfold Manager_AddMessage, GetOrCreateRoom. rewrite Hr, Hm.
  unfold NewChatRoom, NewCircularBuffer.
  destruct (Z.ltb_spec v 0).
  - cbn. split; [lia|done].
  - cbn [mbind option_bind]. unfold AddMessage, Add. cbn [data tail Room.Messages].
    destruct (Z.to_nat v) as [|n] eqn:Ev.
    + cbn. split; [lia|done].
    + cbn. split; [discriminate|lia].
Qed.

Definition env_capacity (val : string) (name : string) : string :=
  if String.eqb name "CHAT_MAX_MESSAGES_PER_STREAM" then val else "".

Lemma LoadFromEnv_capacity_panics_witness :
  Atoi (env_capacity "0" "CHAT_MAX_MESSAGES_PER_STREAM") = Some 0 /\
  0 < 2 ^ 40 /\
  (∅ : gmap string Room.ChatRoom) !! "s"%string = None /\
  (Manager_AddMessage (LoadFromEnv (env_capacity "0")) 1 "id" "s" "a" "Ann" "hi" ∅ = None
   <-> 0 <= 0).
Proof.
  assert (Ha : Atoi (env_capacity "0" "CHAT_MAX_MESSAGES_PER_STREAM") = Some 0)
    by reflexivity.
  assert (Hb : 0 < 2 ^ 40) by lia.
  split; [exact Ha|]. split; [exact Hb|]. split; [reflexivity|].
  exact (LoadFromEnv_capacity_panics (env_capacity "0") 0 1 "id" "s" "a" "Ann" "hi" ∅
           Ha Hb eq_refl).
Defined.

(** ** [ChatConfig.CalculateCapacity] *)

(** The map [CalculateCapacity] returns. *)
Record Capacity := {
  max_memory_mb : Z;
  max_messages_per_stream : Z;
  max_users_per_stream : Z;
  estimated_max_streams : Z;
  total_message_capacity : Z;
  avg_message_size_bytes : Z;
  memory_per_stream_kb : Z
}.

(** [c.CalculateCapacity()]: integer division truncates toward zero and
    panics on a zero divisor ([None]). *)
Definition CalculateCapacity (c : ChatConfig) : option Capacity :=
  let avgMessageSize := 500 in
  let avgUserSize := 200 in
  let totalMemoryBytes := wrap64 (wrap64 (MaxTotalMemoryMB c * 1024) * 1024) in
  let userMemoryPerStream := wrap64 (MaxUsersPerStream c * avgUserSize) in
  let messageMemoryPerStream := wrap64 (MaxMessagesPerStream c * avgMessageSize) in
  let totalPerStream := wrap64 (messageMemoryPerStream + userMemoryPerStream) in
  if totalPerStream =? 0 then None
  else
    let maxStreams := wrap64 (Z.quot totalMemoryBytes totalPerStream) in
    Some {| max_memory_mb := MaxTotalMemoryMB c;
            max_messages_per_stream := MaxMessagesPerStream c;
            max_users_per_stream := MaxUsersPerStream c;
            estimated_max_streams := maxStreams;
            total_message_capacity := wrap64 (maxStreams * MaxMessagesPerStream c);
            avg_message_size_bytes := avgMessageSize;
            memory_per_stream_kb := Z.quot totalPerStream 1024 |}.

(** For non-negative limits small enough not to overflow, the capacity
    estimate panics (division by zero) exactly when both per-stream limits
    are 0; otherwise the estimated number of streams is the largest whose
    per-stream reservation ([500] bytes per message plus [200] per user)
    fits in the memory budget, and the message capacity is that number of
    streams times the per-stream message limit. *)
Theorem CalculateCapacity_bounds c :
  0 <= MaxTotalMemoryMB c <= 2 ^ 40 ->
  0 <= MaxMessagesPerStream c <= 2 ^ 50 ->
  0 <= MaxUsersPerStream c <= 2 ^ 50 ->
  let T := 500 * MaxMessagesPerStream c + 200 * MaxUsersPerStream c in
  let B := MaxTotalMemoryMB c * 1024 * 1024 in
  (CalculateCapacity c = None <-> MaxMessagesPerStream c = 0 /\ MaxUsersPerStream c = 0) /\
  (forall cap, CalculateCapacity c = Some cap ->
     estimated_max_streams cap * T <= B < (estimated_max_streams cap + 1) * T /\
     total_message_capacity cap = estimated_max_streams cap * MaxMessagesPerStream c /\
     memory_per_stream_kb cap = T / 1024).
Proof.
  intros Hb Hm Hu T B. unfold CalculateCapacity.
  rewrite (wrap64_id (MaxTotalMemoryMB c * 1024)) by lia.
  rewrite (wrap64_id (MaxTotalMemoryMB c * 1024 * 1024)) by lia.
  rewrite (wrap64_id (MaxUsersPerStream c * 200)) by lia.
  rewrite (wrap64_id (MaxMessagesPerStream c * 500)) by lia.
  rewrite (wrap64_id (MaxMessagesPerStream c * 500 + MaxUsersPerStream c * 200)) by lia.
  replace (MaxMessagesPerStream c * 500 + MaxUsersPerStream c * 200) with T by (subst T; lia).
  replace (MaxTotalMemoryMB c * 1024 * 1024) with B by (subst B; lia).
  assert (HT : 0 <= T) by (subst T; lia).
  assert (HB : 0 <= B <= 2 ^ 60) by (subst B; lia).
  destruct (Z.eqb_spec T 0) as [H0|H0].
  - split; [split; [intros _; subst T; lia|done]|]. intros cap Hc; discriminate.
  - split; [split; [discriminate|intros [H1 H2]; subst T; lia]|].
    intros cap Hc. injection Hc as <-. cbn.
    rewrite Z.quot_div_nonneg by lia.
    pose proof (Z.div_mod B T H0) as Hd. pose proof (Z.mod_pos_bound B T ltac:(lia)) as Hp.
    assert (Hq : 0 <= B / T <= B) by (split; [apply Z.div_pos|apply Z.div_le_upper_bound]; nia).
    rewrite (wrap64_id (B / T)) by lia.
    split; [nia|]. split.
    + apply wrap64_id.
      assert (B / T * (500 * MaxMessagesPerStream c) <= B) by nia. nia.
    + apply Z.quot_div_nonneg; lia.
Qed.

Lemma CalculateCapacity_bounds_witness :
  (0 <= MaxTotalMemoryMB DefaultConfig <= 2 ^ 40 /\
   0 <= MaxMessagesPerStream DefaultConfig <= 2 ^ 50 /\
   0 <= MaxUsersPerStream DefaultConfig <= 2 ^ 50) /\
  let T := 500 * MaxMessagesPerStream DefaultConfig + 200 * MaxUsersPerStream DefaultConfig in
  let B := MaxTotalMemoryMB DefaultConfig * 1024 * 1024 in
  (CalculateCapacity DefaultConfig = None <->
     MaxMessagesPerStream DefaultConfig = 0 /\ MaxUsersPerStream DefaultConfig = 0) /\
  (forall cap, CalculateCapacity DefaultConfig = Some cap ->
     estimated_max_streams cap * T <= B < (estimated_max_streams cap + 1) * T /\
     total_message_capacity cap = estimated_max_streams cap * MaxMessagesPerStream DefaultConfig /\
     memory_per_stream_kb cap = T / 1024).
Proof.
  assert (H1 : 0 <= MaxTotalMemoryMB DefaultConfig <= 2 ^ 40) by (cbn; lia).
  assert (H2 : 0 <= MaxMessagesPerStream DefaultConfig <= 2 ^ 50) by (cbn; lia).
  assert (H3 : 0 <= MaxUsersPerStream DefaultConfig <= 2 ^ 50) by (cbn; lia).
  split; [split; [exact H1|split; [exact H2|exact H3]]|].
  exact (CalculateCapacity_bounds DefaultConfig H1 H2 H3).
Defined.

(** ** Joining and leaving a room *)

Lemma Mgr_GetOrCreateRoom_roster config now sk m room m1 :
  rosters_in_rooms m -> Mgr_GetOrCreateRoom config now sk m = Some (room, m1) ->
  forall sk', roster sk' m1 = roster sk' m.
Proof.
  intros Hinv. unfold Mgr_GetOrCreateRoom.
  destruct (mrooms m !! sk) as [r|] eqn:Er.
  - intros [= <- <-]. done.
  - destruct (NewChatRoom now sk _) as [r|]; [|done]. cbn [mbind option_bind].
    intros [= <- <-] sk'. unfold roster. cbn [mrosters].
    destruct (decide (sk' = sk)) as [->|Hne].
    + by rewrite lookup_delete_eq, (Hinv sk Er).
    + by rewrite lookup_delete_ne by congruence.
Qed.

(** A user not yet in a room who joins it ([Manager.AddUser] accepted) and
    then leaves ([Manager.RemoveUser], as the connection's [cleanup] does)
    leaves every roster as it was before the join; the room stays stored. *)
Theorem AddUser_RemoveUser_roundtrip config now sk userID username m m' :
  rosters_in_rooms m ->
  roster sk m !! userID = None ->
  Mgr_AddUser config now sk userID username m = Some (None, m') ->
  (forall sk', roster sk' (Mgr_RemoveUser sk userID m') = roster sk' m) /\
  (exists room, mrooms (Mgr_RemoveUser sk userID m') !! sk = Some room) /\
  rosters_in_rooms (Mgr_RemoveUser sk userID m').
Proof.
  intros Hinv Hnot. unfold Mgr_AddUser.
  destruct (Mgr_GetOrCreateRoom config now sk m) as [[room m1]|] eqn:Eg; [|done].
  pose proof (Mgr_GetOrCreateRoom_roster config now sk m room m1 Hinv Eg) as Hros.
  destruct (Mgr_GetOrCreateRoom_spec config now sk m room m1 Hinv Eg)
    as (Hr1 & _ & Hinv1 & _).
  cbn [mbind option_bind].
  destruct (Z.leb _ _); [discriminate|]. intros [= <-].
  unfold Mgr_RemoveUser. cbn [mrooms mrosters]. rewrite lookup_insert_eq.
  cbn [mrooms mrosters]. split; [|split].
  - intros sk'. unfold roster at 1. cbn [mrosters].
    destruct (decide (sk' = sk)) as [->|Hne].
    + rewrite lookup_insert_eq. cbn [default from_option id].
      unfold roster at 1. cbn [mrosters]. rewrite lookup_insert_eq. cbn [default from_option id].
      rewrite delete_insert_id; [by rewrite Hros|]. by rewrite Hros.
    + rewrite !lookup_insert_ne by congruence. rewrite <- (Hros sk'). done.
  - eexists. by rewrite lookup_insert_eq.
  - intros sk' Hn. cbn [mrooms mrosters] in Hn |- *.
    destruct (decide (sk' = sk)) as [->|Hne]; [by rewrite lookup_insert_eq in Hn|].
    rewrite lookup_insert_ne in Hn by congruence. rewrite !lookup_insert_ne by congruence.
    by apply Hinv1.
Qed.

Lemma AddUser_RemoveUser_roundtrip_witness :
  rosters_in_rooms empty_mgr /\ roster "s" empty_mgr !! "a"%string = None /\
  exists m', Mgr_AddUser DefaultConfig 7 "s" "a" "Ann" empty_mgr = Some (None, m') /\
  (forall sk', roster sk' (Mgr_RemoveUser "s" "a" m') = roster sk' empty_mgr) /\
  (exists room, mrooms (Mgr_RemoveUser "s" "a" m') !! "s"%string = Some room) /\
  rosters_in_rooms (Mgr_RemoveUser "s" "a" m').
Proof.
  assert (Hinv : rosters_in_rooms empty_mgr) by (intros sk _; reflexivity).
  assert (Hn : roster "s" empty_mgr !! "a"%string = None) by reflexivity.
  split; [exact Hinv|]. split; [exact Hn|].
  destruct (Mgr_AddUser DefaultConfig 7 "s" "a" "Ann" empty_mgr) as [[res m']|] eqn:E;
    [|vm_compute in E; discriminate].
  destruct res as [e|]; [vm_compute in E; discriminate|].
  exists m'. split; [reflexivity|].
  exact (AddUser_RemoveUser_roundtrip DefaultConfig 7 "s" "a" "Ann" empty_mgr m' Hinv Hn E).
Defined.

(** ** The memory tracker's two thresholds *)

(** [mt.IsNearLimit()]: [float64(TotalBytes)/float64(MaxBytes) > 0.8],
    decided on the exact quotient as [Monitor.IsCritical] is. *)
Definition IsNearLimit (TotalBytes MaxBytes : Z) : bool :=
  if MaxBytes =? 0 then 0 <? TotalBytes
  else if 0 <? MaxBytes then 8 * MaxBytes <? 10 * TotalBytes
  else 10 * TotalBytes <? 8 * MaxBytes.

(** Whatever the totals (a zero or negative budget included), a critical
    tracker is also near its limit: [updateMemoryStats] reaches its
    WARNING branch only for usage above 80% that is not above 90%. *)
Theorem IsCritical_IsNearLimit TotalBytes MaxBytes :
  Monitor.IsCritical TotalBytes MaxBytes = true -> IsNearLimit TotalBytes MaxBytes = true.
Proof.
  unfold Monitor.IsCritical, IsNearLimit.
  destruct (Z.eqb_spec MaxBytes 0); [done|].
  destruct (Z.ltb_spec 0 MaxBytes); rewrite !Z.ltb_lt; lia.
Qed.

Lemma IsCritical_IsNearLimit_witness :
  Monitor.IsCritical 95 100 = true /\ IsNearLimit 95 100 = true.
Proof.
  assert (H : Monitor.IsCritical 95 100 = true) by reflexivity.
  split; [exact H|]. exact (IsCritical_IsNearLimit 95 100 H).
Defined.

(** ** Joining over the WebSocket: [handleJoin] and [cleanup] *)

(** The frames [handleJoin] and [cleanup] produce ([WSMessage] by its
    [Type]; a timeout's [duration] is kept in nanoseconds). *)
Inductive Frame :=
| FError (errorMsg : string)
| FHistory (messages : list CM.ChatMessage)
| FUsers (users : list CU.ChatUser)
| FTimeout (duration : Z)
| FUserJoined (userID username : string)
| FUserLeft (userID username : string).

Inductive JEffect :=
| JSelf (f : Frame)
| JBroadcast (streamKey : string) (f : Frame).

(** The handler's shared state: the manager, the limiter's records and
    [WSHandler.connections]. A registered connection is stored as its
    fields at registration (Go stores the pointer; the fields only change
    on a later join of the same connection). *)
Record Hub := {
  hmgr : Mgr;
  hlimiter : gmap string UserRateRecord;
  hconns : gmap string Conn.Connection
}.

(** [s, _ := data[k].(string)] *)
Definition string_field (k : string) (data : list (string * JSON)) : string :=
  match field k data with Some (JStr s) => s | _ => "" end.

(** [c.handleJoin(msg)]: the updated connection, the effects in order, and
    the new state; [None] is a panic. *)
Definition handleJoin (config : ChatConfig) (now : Z) (c : Conn.Connection)
    (msg : list (string * JSON)) (h : Hub)
    : option (Conn.Connection * list JEffect * Hub) :=
  match field "data" msg with
  | Some (JObj data) =>
      let userID := string_field "userId" data in
      let username := string_field "username" data in
      if String.eqb userID "" || String.eqb username "" then
        Some (c, [JSelf (FError "Missing userId or username")], h)
      else
        let c' := {| Conn.UserID := userID; Conn.Username := username;
                     Conn.StreamKey := Conn.StreamKey c |} in
        '(err, m') ← Mgr_AddUser config now (Conn.StreamKey c) userID username (hmgr h);
        match err with
        | Some e =>
            Some (c', [JSelf (FError (Message e))],
                  {| hmgr := m'; hlimiter := hlimiter h; hconns := hconns h |})
        | None =>
            let h' := {| hmgr := m'; hlimiter := hlimiter h;
                         hconns := <[userID := c']> (hconns h) |} in
            messages ← Mgr_GetMessages (Conn.StreamKey c) 100 m';
            let users := Mgr_GetUsers (Conn.StreamKey c) m' in
            let '(isTimedOut, duration) := GetTimeoutStatus (hlimiter h) userID now in
            Some (c', [JSelf (FHistory messages); JSelf (FUsers users)] ++
                      (if isTimedOut then [JSelf (FTimeout duration)] else []) ++
                      [JBroadcast (Conn.StreamKey c) (FUserJoined userID username)], h')
        end
  | _ => Some (c, [JSelf (FError "Invalid join data")], h)
  end.

(** [c.cleanup()] when the connection closes (closing the channel and the
    socket is not modelled). *)
Definition conn_cleanup (c : Conn.Connection) (h : Hub) : list JEffect * Hub :=
  if String.eqb (Conn.UserID c) "" then ([], h)
  else ([JBroadcast (Conn.StreamKey c) (FUserLeft (Conn.UserID c) (Conn.Username c))],
        {| hmgr := Mgr_RemoveUser (Conn.StreamKey c) (Conn.UserID c) (hmgr h);
           hlimiter := hlimiter h;
           hconns := delete (Conn.UserID c) (hconns h) |}).

(** A join refused because the room is full still sets the connection's
    [UserID] (it is assigned before [AddUser]): the only effect is the
    ROOM_FULL error, nothing is registered and the roster is unchanged;
    when that connection later closes, its [cleanup] removes [userID] from
    the roster and from the registered connections, evicting a member of
    the room who joined under the same id on another connection. *)
Theorem refused_join_cleanup config now c msg data userID username h c' effs h' :
  rosters_in_rooms (hmgr h) ->
  field "data" msg = Some (JObj data) ->
  field "userId" data = Some (JStr userID) ->
  field "username" data = Some (JStr username) ->
  userID <> ""%string -> username <> ""%string ->
  MaxUsersPerStream config <= Z.of_nat (UserCount (Conn.StreamKey c) (hmgr h)) ->
  handleJoin config now c msg h = Some (c', effs, h') ->
  effs = [JSelf (FError "Chat room is full")] /\
  Conn.UserID c' = userID /\
  hconns h' = hconns h /\
  roster (Conn.StreamKey c) (hmgr h') = roster (Conn.StreamKey c) (hmgr h) /\
  roster (Conn.StreamKey c) (hmgr (snd (conn_cleanup c' h'))) =
    delete userID (roster (Conn.StreamKey c) (hmgr h)) /\
  hconns (snd (conn_cleanup c' h')) = delete userID (hconns h).
Proof.
  intros Hinv Hd Hu Hn Hu0 Hn0 Hfull. unfold handleJoin. rewrite Hd.
  unfold string_field. rewrite Hu, Hn.
  destruct (String.eqb_spec userID ""); [done|].
  destruct (String.eqb_spec username ""); [done|]. cbn [orb].
  unfold Mgr_AddUser.
  destruct (Mgr_GetOrCreateRoom config now (Conn.StreamKey c) (hmgr h)) as [[room m1]|] eqn:Eg;
    [|done].
  destruct (Mgr_GetOrCreateRoom_spec config now _ _ room m1 Hinv Eg) as (Hr1 & Hc1 & _ & _).
  pose proof (Mgr_GetOrCreateRoom_roster config now _ _ room m1 Hinv Eg) as Hros.
  cbn [mbind option_bind]. rewrite Hc1.
  destruct (Z.leb_spec (MaxUsersPerStream config) (Z.of_nat (UserCount (Conn.StreamKey c) (hmgr h))));
    [|lia].
  intros [= <- <- <-]. cbn [hconns hmgr Conn.UserID Conn.StreamKey Message ErrRoomFull].
  split; [done|]. split; [done|]. split; [done|]. split; [by rewrite Hros|].
  unfold conn_cleanup. cbn [Conn.UserID Conn.StreamKey].
  destruct (String.eqb_spec userID ""); [done|]. cbn [snd hmgr hconns].
  split; [|done].
  unfold Mgr_RemoveUser. rewrite Hr1. unfold roster at 1. cbn [mrosters].
  rewrite lookup_insert_eq. cbn [default from_option id]. by rewrite Hros.
Qed.

Definition one_seat_config : ChatConfig :=
  {| MaxTotalMemoryMB := 100; MaxMessagesPerStream := 500; MaxUsersPerStream := 1;
     MessageRetentionMinutes := 30; CleanupIntervalMinutes := 5;
     InactiveStreamTimeout := 10 * Minute; MaxMessagesPerMinute := 10;
     MaxCharactersPerMessage := 500; SpamThresholdMessages := 20;
     SpamTimeoutMinutes := 5 |}.

Definition ann : CU.ChatUser :=
  {| CU.UserID := "a"; CU.Username := "Ann"; CU.ConnectedAt := 1; CU.LastMessage := 0;
     CU.MessageCount := 0; CU.CharCount := 0; CU.TimeoutUntil := 0; CU.Violations := 0;
     CU.IsActive := true |}.

(** Room "s" holds its one seat, taken by "a" on a registered connection. *)
Definition full_hub : Hub :=
  {| hmgr := {| mrooms := {["s" := two_msgs_room]};
                mrosters := {["s" := {["a" := ann]}]} |};
     hlimiter := ∅;
     hconns := {["a" := {| Conn.UserID := "a"; Conn.Username := "Ann";
                            Conn.StreamKey := "s" |}]} |}.

Definition fresh_conn : Conn.Connection :=
  {| Conn.UserID := ""; Conn.Username := ""; Conn.StreamKey := "s" |}.

Definition join_frame (userID username : string) : list (string * JSON) :=
  [("type", JStr "join");
   ("data", JObj [("userId", JStr userID); ("username", JStr username)])].

Lemma refused_join_cleanup_witness :
  exists c' effs h',
    rosters_in_rooms (hmgr full_hub) /\
    field "data" (join_frame "a" "Ann") =
      Some (JObj [("userId", JStr "a"); ("username", JStr "Ann")]) /\
    field "userId" [("userId", JStr "a"); ("username", JStr "Ann")] = Some (JStr "a") /\
    field "username" [("userId", JStr "a"); ("username", JStr "Ann")] = Some (JStr "Ann") /\
    "a"%string <> ""%string /\ "Ann"%string <> ""%string /\
    MaxUsersPerStream one_seat_config <=
      Z.of_nat (UserCount (Conn.StreamKey fresh_conn) (hmgr full_hub)) /\
    handleJoin one_seat_config 9 fresh_conn (join_frame "a" "Ann") full_hub
      = Some (c', effs, h') /\
    (effs = [JSelf (FError "Chat room is full")] /\
     Conn.UserID c' = "a"%string /\
     hconns h' = hconns full_hub /\
     roster (Conn.StreamKey fresh_conn) (hmgr h') =
       roster (Conn.StreamKey fresh_conn) (hmgr full_hub) /\
     roster (Conn.StreamKey fresh_conn) (hmgr (snd (conn_cleanup c' h'))) =
       delete "a"%string (roster (Conn.StreamKey fresh_conn) (hmgr full_hub)) /\
     hconns (snd (conn_cleanup c' h')) = delete "a"%string (hconns full_hub)).
Proof.
  assert (Hinv : rosters_in_rooms (hmgr full_hub)).
  { intros sk Hn. cbn [hmgr full_hub mrooms mrosters] in Hn |- *.
    apply lookup_singleton_None in Hn. by apply lookup_singleton_ne. }
  assert (Hfull : MaxUsersPerStream one_seat_config <=
                  Z.of_nat (UserCount (Conn.StreamKey fresh_conn) (hmgr full_hub))).
  { unfold UserCount, roster. cbn [hmgr full_hub mrosters Conn.StreamKey fresh_conn].
    rewrite lookup_singleton_eq. cbn [default from_option id].
    rewrite map_size_singleton. cbn. lia. }
  destruct (handleJoin one_seat_config 9 fresh_conn (join_frame "a" "Ann") full_hub)
    as [[[c' effs] h']|] eqn:E; [|vm_compute in E; discriminate].
  exists c', effs, h'.
  do 8 (split; [first [done | exact Hinv | exact Hfull]|]).
  exact (refused_join_cleanup one_seat_config 9 fresh_conn (join_frame "a" "Ann")
           [("userId", JStr "a"); ("username", JStr "Ann")] "a" "Ann" full_hub c' effs h'
           Hinv eq_refl eq_refl eq_refl ltac:(done) ltac:(done) Hfull E).
Defined.

(** An accepted join ([AddUser] below capacity, on a room whose buffer is
    well formed or empty, e.g. of capacity 0) registers the connection under
    the user's id, adds the joiner (connected now, active, no messages, no
    timeout) to the room's roster, and answers, in this order: the room's
    last 100 messages, the room's users as [GetUsers] lists them after the
    join (the joiner among them), the remaining timeout if the limiter has
    the user timed out, and a [user_joined] broadcast to the stream. *)
Theorem accepted_join config now c msg data userID username h room m1 xs c' effs h' :
  rosters_in_rooms (hmgr h) ->
  field "data" msg = Some (JObj data) ->
  field "userId" data = Some (JStr userID) ->
  field "username" data = Some (JStr username) ->
  userID <> ""%string -> username <> ""%string ->
  Mgr_GetOrCreateRoom config now (Conn.StreamKey c) (hmgr h) = Some (room, m1) ->
  (buffer_wf (Room.Messages room) \/ size (Room.Messages room) = 0%nat) ->
  GetAll (Room.Messages room) = Some xs ->
  Z.of_nat (UserCount (Conn.StreamKey c) (hmgr h)) < MaxUsersPerStream config ->
  handleJoin config now c msg h = Some (c', effs, h') ->
  c' = {| Conn.UserID := userID; Conn.Username := username;
          Conn.StreamKey := Conn.StreamKey c |} /\
  hconns h' = <[userID := c']> (hconns h) /\
  roster (Conn.StreamKey c) (hmgr h') =
    <[userID := {| CU.UserID := userID; CU.Username := username;
                   CU.ConnectedAt := now; CU.LastMessage := 0; CU.MessageCount := 0;
                   CU.CharCount := 0; CU.TimeoutUntil := 0; CU.Violations := 0;
                   CU.IsActive := true |}]> (roster (Conn.StreamKey c) (hmgr h)) /\
  effs = [JSelf (FHistory (drop (length xs - 100) xs));
          JSelf (FUsers (Mgr_GetUsers (Conn.StreamKey c) (hmgr h')))] ++
         (if fst (GetTimeoutStatus (hlimiter h) userID now)
          then [JSelf (FTimeout (snd (GetTimeoutStatus (hlimiter h) userID now)))]
          else []) ++
         [JBroadcast (Conn.StreamKey c) (FUserJoined userID username)] /\
  exists u, u ∈ Mgr_GetUsers (Conn.StreamKey c) (hmgr h') /\
    CU.UserID u = userID /\ CU.Username u = username.
Proof.
  intros Hinv Hd Hu Hn Hu0 Hn0 Eg Hwf Hg Hlt.
  assert (Hrec : GetRecent 100 (Room.Messages room) = Some (drop (length xs - 100) xs)).
  { destruct Hwf as [Hwf|H0].
    - by rewrite (GetRecent_drop 100 _ xs Hwf Hg) by lia.
    - unfold GetAll in Hg. rewrite H0 in Hg. cbn in Hg. injection Hg as <-.
      unfold GetRecent. by rewrite H0. }
  unfold handleJoin. rewrite Hd.
  unfold string_field. rewrite Hu, Hn.
  destruct (String.eqb_spec userID ""); [done|].
  destruct (String.eqb_spec username ""); [done|]. cbn [orb].
  unfold Mgr_AddUser. rewrite Eg.
  destruct (Mgr_GetOrCreateRoom_spec config now _ _ room m1 Hinv Eg) as (Hr1 & Hc1 & _ & _).
  pose proof (Mgr_GetOrCreateRoom_roster config now _ _ room m1 Hinv Eg (Conn.StreamKey c))
    as Hro.
  cbn [mbind option_bind]. rewrite Hc1.
  destruct (Z.leb_spec (MaxUsersPerStream config) (Z.of_nat (UserCount (Conn.StreamKey c) (hmgr h))));
    [lia|].
  cbn [mbind option_bind].
  unfold Mgr_GetMessages. cbn [mrooms]. rewrite lookup_insert_eq.
  unfold GetMessages. cbn [Z.ltb Z.compare Room.Messages].
  rewrite Hrec. cbn [mbind option_bind].
  destruct (GetTimeoutStatus (hlimiter h) userID now) as [isTimedOut duration].
  intros [= <- <- <-]. split; [done|]. split; [done|].
  split.
  { unfold roster at 1. cbn [hmgr mrosters]. rewrite lookup_insert_eq.
    cbn [default from_option id]. by rewrite Hro. }
  split; [reflexivity|].
  unfold Mgr_GetUsers. cbn [hmgr mrooms]. rewrite lookup_insert_eq.
  exists {| CU.UserID := userID; CU.Username := username;
             CU.ConnectedAt := now; CU.LastMessage := 0; CU.MessageCount := 0;
             CU.CharCount := 0; CU.TimeoutUntil := 0; CU.Violations := 0;
             CU.IsActive := true |}.
  split; [|split; reflexivity].
  apply list_elem_of_fmap. eexists (userID, _). split; [reflexivity|]. apply elem_of_map_to_list.
  unfold roster. cbn [mrosters]. rewrite lookup_insert_eq. cbn [default from_option id].
  by rewrite lookup_insert_eq.
Qed.

Definition empty_hub : Hub := {| hmgr := empty_mgr; hlimiter := ∅; hconns := ∅ |}.

Lemma accepted_join_witness :
  exists room m1 c' effs h',
    rosters_in_rooms (hmgr empty_hub) /\
    Mgr_GetOrCreateRoom DefaultConfig 9 (Conn.StreamKey fresh_conn) (hmgr empty_hub)
      = Some (room, m1) /\
    (buffer_wf (Room.Messages room) \/ size (Room.Messages room) = 0%nat) /\
    GetAll (Room.Messages room) = Some [] /\
    Z.of_nat (UserCount (Conn.StreamKey fresh_conn) (hmgr empty_hub))
      < MaxUsersPerStream DefaultConfig /\
    handleJoin DefaultConfig 9 fresh_conn (join_frame "a" "Ann") empty_hub
      = Some (c', effs, h') /\
    (c' = {| Conn.UserID := "a"; Conn.Username := "Ann";
             Conn.StreamKey := Conn.StreamKey fresh_conn |} /\
     hconns h' = <[("a"%string) := c']> (hconns empty_hub) /\
     roster (Conn.StreamKey fresh_conn) (hmgr h') =
       <[("a"%string) := {| CU.UserID := "a"; CU.Username := "Ann";
                   CU.ConnectedAt := 9; CU.LastMessage := 0; CU.MessageCount := 0;
                   CU.CharCount := 0; CU.TimeoutUntil := 0; CU.Violations := 0;
                   CU.IsActive := true |}]> (roster (Conn.StreamKey fresh_conn) (hmgr empty_hub)) /\
     effs = [JSelf (FHistory (drop (length ([] : list CM.ChatMessage) - 100) []));
             JSelf (FUsers (Mgr_GetUsers (Conn.StreamKey fresh_conn) (hmgr h')))] ++
            (if fst (GetTimeoutStatus (hlimiter empty_hub) "a" 9)
             then [JSelf (FTimeout (snd (GetTimeoutStatus (hlimiter empty_hub) "a" 9)))]
             else []) ++
            [JBroadcast (Conn.StreamKey fresh_conn) (FUserJoined "a" "Ann")] /\
     exists u, u ∈ Mgr_GetUsers (Conn.StreamKey fresh_conn) (hmgr h') /\
       CU.UserID u = "a"%string /\ CU.Username u = "Ann"%string).
Proof.
  assert (Hinv : rosters_in_rooms (hmgr empty_hub)) by (intros sk _; reflexivity).
  destruct (Mgr_GetOrCreateRoom DefaultConfig 9 "s" empty_mgr) as [[room m1]|] eqn:Eg;
    [|vm_compute in Eg; discriminate].
  assert (Hwf : buffer_wf (Room.Messages room) \/ size (Room.Messages room) = 0%nat).
  { left. vm_compute in Eg. injection Eg as <- <-. unfold buffer_wf; cbn. lia. }
  assert (Hg : GetAll (Room.Messages room) = Some []).
  { vm_compute in Eg. injection Eg as <- <-. reflexivity. }
  assert (Hlt : Z.of_nat (UserCount (Conn.StreamKey fresh_conn) (hmgr empty_hub))
                < MaxUsersPerStream DefaultConfig) by (vm_compute; reflexivity).
  destruct (handleJoin DefaultConfig 9 fresh_conn (join_frame "a" "Ann") empty_hub)
    as [[[c' effs] h']|] eqn:E; [|vm_compute in E; discriminate].
  exists room, m1, c', effs, h'.
  do 6 (split; [first [done | exact Hinv | exact Hlt | exact Hwf]|]).
  exact (accepted_join DefaultConfig 9 fresh_conn (join_frame "a" "Ann")
           [("userId", JStr "a"); ("username", JStr "Ann")] "a" "Ann" empty_hub room m1 []
           c' effs h' Hinv eq_refl eq_refl eq_refl ltac:(done) ltac:(done) Eg Hwf Hg Hlt E).
Defined.

(** ** Clearing a ring buffer *)

(** [cb.Clear()] on a well-formed buffer empties it ([GetAll] and
    [GetRecent] return nothing, [Size] is 0) without changing its
    capacity, and the buffer then behaves as a new one: appending any
    messages leaves the last [maxSize] of them, oldest first. *)
Theorem Clear_resets cb :
  buffer_wf cb ->
  buffer_wf (Clear cb) /\ Size (Clear cb) = 0%nat /\ maxSize (Clear cb) = maxSize cb /\
  GetAll (Clear cb) = Some [] /\ (forall n, GetRecent n (Clear cb) = Some []) /\
  forall msgs, exists cb', add_all msgs (Clear cb) = Some cb' /\
    GetAll cb' = Some (drop (length msgs - maxSize cb) msgs).
Proof.
  intros Hwf. pose proof Hwf as (HC & Hlen & Hh & Hs & Ht).
  assert (Hwf' : buffer_wf (Clear cb)).
  { unfold buffer_wf, Clear; cbn [data maxSize head tail size].
    rewrite Nat.add_0_r, Nat.Div0.mod_0_l. lia. }
  assert (Hg : GetAll (Clear cb) = Some []) by reflexivity.
  split; [done|]. split; [done|]. split; [done|]. split; [done|].
  split; [intros n; reflexivity|].
  intros msgs. destruct (add_all_spec msgs _ [] Hwf' Hg) as (cb' & Ha & _ & _ & Hg').
  exists cb'. split; [done|]. exact Hg'.
Qed.

Lemma Clear_resets_witness :
  buffer_wf two_msgs_buffer /\
  buffer_wf (Clear two_msgs_buffer) /\ Size (Clear two_msgs_buffer) = 0%nat /\
  maxSize (Clear two_msgs_buffer) = maxSize two_msgs_buffer /\
  GetAll (Clear two_msgs_buffer) = Some [] /\
  (forall n, GetRecent n (Clear two_msgs_buffer) = Some []) /\
  forall msgs, exists cb', add_all msgs (Clear two_msgs_buffer) = Some cb' /\
    GetAll cb' = Some (drop (length msgs - maxSize two_msgs_buffer) msgs).
Proof.
  assert (Hwf : buffer_wf two_msgs_buffer) by (unfold buffer_wf; cbn; lia).
  split; [exact Hwf|]. exact (Clear_resets two_msgs_buffer Hwf).
Defined.
